(** * TS-map estimation (gammapy/detect/test_statistics.py)

    A shallow embedding of the TS-map engine: the per-pixel evaluator
    [_ts_value], the three amplitude solvers, the error estimators, the
    driver [TSMapEstimator.run] with its mask, and the two multi-scale
    helpers.

    - Python floats and numpy float64 are IEEE binary64: Rocq's primitive
      [float], with [nan] for NaN.
    - A 2-D numpy array is a list of rows.
    - A Python exception is a value of [exn]; a computation that may raise
      returns [res A].
    - The compiled module [_test_statistics_cython] and the scipy routines
      lie outside the Python module: they are the two interfaces
      [CythonKernel] and [SciPy], and every theorem of a section holds for
      all their implementations.  [Reference] is one executable
      implementation, used where a statement is evaluated on an input. *)

From Stdlib Require Import ZArith List Floats Lia Bool.
From stdpp Require Import gmap strings list.

Open Scope Z_scope.

(* ===================================================================== *)
(** ** Python exceptions and the error monad *)
(* ===================================================================== *)

Inductive exn : Type :=
  | TypeError
  | ValueError
  | RuntimeError
  | IndexError
  | UnboundLocalError
  | KeyError (key : string)
  | NameError (name : string).

Inductive res (A : Type) : Type :=
  | Ok (a : A)
  | Raise (e : exn).
Arguments Ok {A} a.
Arguments Raise {A} e.

Global Instance res_ret : MRet res := fun _ a => Ok a.
Global Instance res_bind : MBind res := fun _ _ k m =>
  match m with
  | Ok a => k a
  | Raise e => Raise e
  end.

(** [for x in xs: ...] with a body that may raise: the first exception
    ends the loop. *)
Fixpoint foldM {A S} (f : S -> A -> res S) (s : S) (xs : list A) : res S :=
  match xs with
  | [] => Ok s
  | x :: xs' => s' ← f s x; foldM f s' xs'
  end.

(** [try: body / except (E1, E2): handler]. *)
Definition try_except {A} (body : res A) (caught : exn -> bool) (handler : res A)
  : res A :=
  match body with
  | Ok a => Ok a
  | Raise e => if caught e then handler else Raise e
  end.

Definition is_RuntimeError (e : exn) : bool :=
  match e with RuntimeError => true | _ => false end.

Definition is_RuntimeError_or_ValueError (e : exn) : bool :=
  match e with RuntimeError | ValueError => true | _ => false end.

(* ===================================================================== *)
(** ** Floats *)
(* ===================================================================== *)

Definition FLUX_FACTOR : float := 0x1.19799812dea11p-40%float.  (* 1e-12 *)
Definition MAX_NITER : Z := 20.
Definition RTOL : float := 0x1.0624dd2f1a9fcp-10%float.         (* 1e-3 *)

(** A Python int used where a float is expected. *)
Definition float_of_Z (z : Z) : float :=
  match z with
  | Z0 => 0%float
  | Zpos _ => PrimFloat.of_uint63 (Uint63.of_Z z)
  | Zneg _ => (- PrimFloat.of_uint63 (Uint63.of_Z (- z)))%float
  end.

(** [np.sign]: -1, 0 or 1, and NaN for NaN. *)
Definition np_sign (x : float) : float :=
  if (x <? 0)%float then (-1)%float
  else if (0 <? x)%float then 1%float
  else if (x =? 0)%float then 0%float
  else nan.

(** Python's [max(a, b)]: [b] when [b > a], else [a] (so a NaN first
    argument is returned, a NaN second argument is dropped). *)
Definition py_max (a b : float) : float := if (a <? b)%float then b else a.

Definition is_finite (x : float) : bool :=
  negb (PrimFloat.is_nan x) && negb (PrimFloat.is_infinity x).

(* ===================================================================== *)
(** ** numpy arrays *)
(* ===================================================================== *)

(** A 2-D array is the list of its rows; an image holds floats. *)
Abbreviation array2 A := (list (list A)) (only parsing).
Abbreviation image := (list (list float)) (only parsing).

Definition shape2 {A} (a : array2 A) : Z * Z :=
  (Z.of_nat (length a), Z.of_nat (length (hd [] a))).

(** Elementwise operations on arrays of one shape. *)
Definition arr_map {A B} (f : A -> B) (a : array2 A) : array2 B := map (map f) a.
Definition arr_zip {A B C} (f : A -> B -> C) (a : array2 A) (b : array2 B)
  : array2 C := zip_with (zip_with f) a b.

(** [a.sum()], accumulated in row-major order. *)
Definition np_sum (a : image) : float := fold_left PrimFloat.add (concat a) 0%float.

(** [a[j][i]], [None] outside the array. *)
Definition pixel {A} (a : array2 A) (j i : nat) : option A :=
  match a !! j with
  | Some row => row !! i
  | None => None
  end.

(** A slice bound as Python clamps it: a negative bound counts from the
    end. *)
Definition slice_bound (len b : Z) : Z :=
  if b <? 0 then Z.max 0 (b + len) else Z.min b len.

(** [l[lo:hi]]. *)
Definition py_slice {A} (lo hi : Z) (l : list A) : list A :=
  let n := Z.of_nat (length l) in
  let lo' := slice_bound n lo in
  let hi' := slice_bound n hi in
  take (Z.to_nat (hi' - lo')) (drop (Z.to_nat lo') l).

(** [i] lies in [range(len)[lo:hi]]. *)
Definition in_slice (len lo hi : Z) (i : Z) : bool :=
  (slice_bound len lo <=? i) && (i <? slice_bound len hi).

(** [a[pos]] for an index tuple: negative indices count from the end, and
    an index outside the array raises. *)
Definition py_index (len i : Z) : option nat :=
  let i' := if i <? 0 then i + len else i in
  if (0 <=? i') && (i' <? len) then Some (Z.to_nat i') else None.

Definition getitem2 {A} (a : array2 A) (pos : Z * Z) : res A :=
  match py_index (Z.of_nat (length a)) pos.1 with
  | None => Raise IndexError
  | Some j =>
      match a !! j with
      | None => Raise IndexError
      | Some row =>
          match py_index (Z.of_nat (length row)) pos.2 with
          | None => Raise IndexError
          | Some i =>
              match row !! i with
              | Some v => Ok v
              | None => Raise IndexError
              end
          end
      end
  end.

(** [a[j, i] = v] for one pixel; nothing is written outside the array. *)
Definition set_pixel {A} (a : array2 A) (j i : nat) (v : A) : array2 A :=
  match a !! j with
  | Some row => <[j := <[i := v]> row]> a
  | None => a
  end.

(** [_extract_array]: the window of [shape] centred at [position]. *)
Definition _extract_array {A} (array : array2 A) (shape : Z * Z) (position : Z * Z)
  : array2 A :=
  let x_width := shape.2 / 2 in
  let y_width := shape.1 / 2 in
  let y_lo := position.1 - y_width in
  let y_hi := position.1 + y_width + 1 in
  let x_lo := position.2 - x_width in
  let x_hi := position.2 + x_width + 1 in
  map (py_slice x_lo x_hi) (py_slice y_lo y_hi array).

(* ===================================================================== *)
(** ** The numerical back end *)
(* ===================================================================== *)

(** The functions imported from [_test_statistics_cython], the compiled
    companion of the module: parameters of the development. *)
Class CythonKernel : Type := {
  _cash_cython : image -> image -> image;
  _cash_sum_cython : image -> image -> float;
  _amplitude_bounds_cython : image -> image -> image -> float * float * float;
  _f_cash_root_cython : float -> image -> image -> image -> float;
  _x_best_leastsq : image -> image -> image -> image -> float;
}.

(** The scipy routines the module calls.  [brentq f a b maxiter rtol]
    yields the root and the iterations used, or raises [ValueError] (no
    sign change over the bracket) or [RuntimeError] (no convergence);
    [newton f x0 maxiter tol] yields the root or raises [RuntimeError];
    [fftconvolve a k], called with [mode='same'], yields an array of the
    shape of [a]. *)
Class SciPy : Type := {
  brentq : (float -> float) -> float -> float -> Z -> float -> res (float * Z);
  newton : (float -> float) -> float -> Z -> float -> res float;
  fftconvolve : image -> image -> image;
  fftconvolve_shape : forall a k, map length (fftconvolve a k) = map length a;
  brentq_raises : forall f a b maxiter rtol e,
    brentq f a b maxiter rtol = Raise e -> e = RuntimeError \/ e = ValueError;
  newton_raises : forall f x0 maxiter tol e,
    newton f x0 maxiter tol = Raise e -> e = RuntimeError;
}.

(* ===================================================================== *)
(** ** Per-pixel results *)
(* ===================================================================== *)

(** A value stored in a per-pixel result: a float, or the int [niter]. *)
Inductive pyval : Type :=
  | PyFloat (x : float)
  | PyInt (n : Z).

Definition pyval_float (v : pyval) : float :=
  match v with
  | PyFloat x => x
  | PyInt n => float_of_Z n
  end.

(** What [_ts_value] returns: the dict built on the fitting path, or the
    3-tuple of the threshold path. *)
Inductive pixel_result : Type :=
  | PixelTuple (ts flux : float) (niter : Z)
  | PixelDict (d : gmap string pyval).

(** [d[key]] on a dict. *)
Definition dict_getitem {V} (d : gmap string V) (key : string) : res V :=
  match d !! key with
  | Some v => Ok v
  | None => Raise (KeyError key)
  end.

(** [r[name]] with a string [name]: a tuple accepts only integer indices. *)
Definition pixel_getitem (r : pixel_result) (name : string) : res pyval :=
  match r with
  | PixelTuple _ _ _ => Raise TypeError
  | PixelDict d => dict_getitem d name
  end.

(* ===================================================================== *)
(** ** Statistic, solvers and error estimators *)
(* ===================================================================== *)

Section Fit.
Context `{CK : CythonKernel} `{SP : SciPy}.

(** [background + x * FLUX_FACTOR * model]. *)
Definition total_model (x : float) (background model : image) : image :=
  arr_zip PrimFloat.add background (arr_map (PrimFloat.mul (x * FLUX_FACTOR)) model).

Definition f_cash (x : float) (counts background model : image) : float :=
  _cash_sum_cython counts (total_model x background model).

(** The third of the bounds of [_amplitude_bounds_cython]. *)
Definition amplitude_min_total (counts background model : image) : float :=
  (_amplitude_bounds_cython counts background model).2.

(** The loop of [_leastsq_iter_amplitude]: [n] iterations are left, [i]
    is the loop index, [x_last] the value of [x] bound so far. *)
Fixpoint leastsq_loop (counts background model : image)
    (amplitude_min_total rtol : float) (n : nat) (i : Z) (weights : image)
    (x_old : float) (x_last : option float) : res (float * Z) :=
  match n with
  | O =>
      match x_last with
      | Some x => Ok (py_max (x / FLUX_FACTOR) amplitude_min_total, MAX_NITER)
      | None => Raise UnboundLocalError
      end
  | S n' =>
      let x := _x_best_leastsq counts background model weights in
      if (PrimFloat.abs ((x - x_old) / x) <? rtol)%float
      then Ok (py_max (x / FLUX_FACTOR) amplitude_min_total, i + 1)
      else
        let weights' :=
          arr_zip PrimFloat.add (arr_map (PrimFloat.mul x) model) background in
        leastsq_loop counts background model amplitude_min_total rtol
          n' (i + 1) weights' x (Some x)
  end.

Definition _leastsq_iter_amplitude (counts background model : image)
    (maxiter : Z) (rtol : float) : res (float * Z) :=
  let '(amplitude_min, amplitude_max, amplitude_min_total) :=
    _amplitude_bounds_cython counts background model in
  if negb (0 <? np_sum counts)%float then Ok (amplitude_min_total, 0)
  else
    let weights := arr_map (fun _ => 1%float) model in
    leastsq_loop counts background model amplitude_min_total rtol
      (Z.to_nat maxiter) 0 weights 0%float None.

Definition _root_amplitude (counts background model : image) (flux rtol : float)
  : res (float * Z) :=
  try_except
    (root ← newton (fun x => _f_cash_root_cython x counts background model)
                   flux MAX_NITER rtol;
     Ok (root, 0))
    is_RuntimeError
    (Ok (nan, MAX_NITER)).

Definition _root_amplitude_brentq (counts background model : image) (rtol : float)
  : res (float * Z) :=
  let '(amplitude_min, amplitude_max, amplitude_min_total) :=
    _amplitude_bounds_cython counts background model in
  if negb (0 <? np_sum counts)%float then Ok (amplitude_min_total, 0)
  else
    try_except
      (result ← brentq (fun x => _f_cash_root_cython x counts background model)
                       amplitude_min amplitude_max MAX_NITER rtol;
       Ok (py_max result.1 amplitude_min_total, result.2))
      is_RuntimeError_or_ValueError
      (Ok (nan, MAX_NITER)).

Definition _compute_flux_err_covar (x : float) (counts background model : image)
  : float :=
  let square := fun v : float => (v * v)%float in
  let stat :=
    arr_zip PrimFloat.div
      (arr_zip PrimFloat.mul (arr_map square model) counts)
      (arr_map square (total_model x background model)) in
  PrimFloat.sqrt (1 / np_sum stat).

Definition _compute_flux_err_conf (amplitude : float) (counts background model : image)
    (c_1 : float) (error_sigma : Z) : res float :=
  let ts_diff := fun x : float =>
    ((c_1 + float_of_Z (error_sigma ^ 2)) - f_cash x counts background model)%float in
  let amplitude_max := (amplitude + 1e4)%float in
  try_except
    (result ← brentq ts_diff amplitude amplitude_max MAX_NITER 0x1.0624dd2f1a9fcp-10%float;
     Ok (result.1 - amplitude)%float)
    is_RuntimeError_or_ValueError
    (Ok nan).

(** Lines 544-551 of [_ts_value]: the dispatch on [method]. *)
Definition fit_amplitude (position : Z * Z) (counts_ background_ model : image)
    (flux : option image) (method : string) (rtol : float) : res (float * Z) :=
  if String.eqb method "root brentq"
  then _root_amplitude_brentq counts_ background_ model rtol
  else if String.eqb method "root newton"
  then
    match flux with
    | None => Raise TypeError
    | Some f =>
        seed ← getitem2 f position;
        _root_amplitude counts_ background_ model seed rtol
    end
  else if String.eqb method "leastsq iter"
  then _leastsq_iter_amplitude counts_ background_ model MAX_NITER rtol
  else Raise ValueError.

(** Lines 544-575 of [_ts_value]: the fit, the statistic at the fitted
    amplitude and the result dict. *)
Definition ts_fit (position : Z * Z) (counts_ background_ model : image)
    (c_0 : float) (flux : option image) (method error_method : string)
    (error_sigma : Z) (ul_method : string) (ul_sigma : Z) (rtol : float)
  : res pixel_result :=
  '(amplitude, niter) ← fit_amplitude position counts_ background_ model flux method rtol;
  let c_1 := f_cash amplitude counts_ background_ model in
  let result : gmap string pyval := ∅ in
  let result := <["ts" := PyFloat ((c_0 - c_1) * np_sign amplitude)]> result in
  let result := <["flux" := PyFloat (amplitude * FLUX_FACTOR)]> result in
  let result := <["niter" := PyInt niter]> result in
  result ←
    (if String.eqb error_method "covar" then
       let flux_err := _compute_flux_err_covar amplitude counts_ background_ model in
       Ok (<["flux_err" := PyFloat (flux_err * float_of_Z error_sigma)]> result)
     else if String.eqb error_method "conf" then
       flux_err ←
         _compute_flux_err_conf amplitude counts_ background_ model c_1 error_sigma;
       Ok (<["flux_err" := PyFloat (FLUX_FACTOR * flux_err)]> result)
     else Ok result);
  if String.eqb ul_method "covar" then
    flux_ ← dict_getitem result "flux";
    flux_err ← dict_getitem result "flux_err";
    Ok (PixelDict (<["flux_ul" :=
          PyFloat (pyval_float flux_ + float_of_Z ul_sigma * pyval_float flux_err)]>
          result))
  else if String.eqb ul_method "conf" then
    flux_ul ←
      _compute_flux_err_conf amplitude counts_ background_ model c_1 ul_sigma;
    flux_ ← dict_getitem result "flux";
    Ok (PixelDict (<["flux_ul" :=
          PyFloat (FLUX_FACTOR * flux_ul + pyval_float flux_)]> result))
  else Ok (PixelDict result).

(** The window of [array] under the kernel at [position], the per-pixel
    model template and the summed null statistic, as [_ts_value] forms
    them. *)
Definition window (array kernel : image) (position : Z * Z) : image :=
  _extract_array array (shape2 kernel) position.

Definition pixel_model (exposure kernel : image) (position : Z * Z) : image :=
  arr_zip PrimFloat.mul (window exposure kernel position) kernel.

Definition null_statistic (c_0 kernel : image) (position : Z * Z) : float :=
  np_sum (window c_0 kernel position).

Definition _ts_value (position : Z * Z) (counts exposure background c_0 : image)
    (kernel : image) (flux : option image) (method error_method : string)
    (error_sigma : Z) (ul_method : string) (ul_sigma : Z)
    (threshold : option float) (rtol : float) : res pixel_result :=
  let counts_ := window counts kernel position in
  let background_ := window background kernel position in
  let model := pixel_model exposure kernel position in
  let c_0 := null_statistic c_0 kernel position in
  early ←
    match threshold with
    | None => Ok None
    | Some threshold =>
        match flux with
        | None => Raise TypeError
        | Some f =>
            seed ← getitem2 f position;
            let c_1 := f_cash seed counts_ background_ model in
            (* Don't fit if pixel significance is low *)
            if (c_0 - c_1 <? threshold)%float
            then Ok (Some (PixelTuple (c_0 - c_1) (seed * FLUX_FACTOR) 0))
            else Ok None
        end
    end;
  match early with
  | Some r => Ok r
  | None =>
      ts_fit position counts_ background_ model c_0 flux method error_method
        error_sigma ul_method ul_sigma rtol
  end.

End Fit.

(* ===================================================================== *)
(** ** The driver *)
(* ===================================================================== *)

(** [self.parameters]. *)
Record parameters : Type := {
  p_method : string;
  p_error_method : string;
  p_error_sigma : Z;
  p_ul_method : string;
  p_ul_sigma : Z;
  p_n_jobs : Z;
  p_threshold : option float;
  p_rtol : float;
}.

(** The [maps] dict of [run], by the keys [run] reads; each entry is the
    [.data] array of the map, and the optional 'mask' holds integers. *)
Record sky_maps : Type := {
  m_counts : option image;
  m_background : option image;
  m_exposure : option image;
  m_mask : option (array2 Z);
}.

Definition maps_getitem {A} (entry : option A) (key : string) : res A :=
  match entry with
  | Some a => Ok a
  | None => Raise (KeyError key)
  end.

(** The [which] argument of [run]: the string 'all' or a list of names. *)
Inductive which_arg : Type :=
  | WhichAll
  | WhichList (names : list string).

(** [a[sy.1:sy.2, sx.1:sx.2] = v]. *)
Definition set_slice2 {A} (sy sx : Z * Z) (v : A) (a : array2 A) : array2 A :=
  let ny := Z.of_nat (length a) in
  imap (fun j row =>
    let nx := Z.of_nat (length row) in
    imap (fun i old =>
      if in_slice ny sy.1 sy.2 (Z.of_nat j) && in_slice nx sx.1 sx.2 (Z.of_nat i)
      then v else old) row) a.

(** [np.where(mask)] zipped into positions: the non-zero entries, in
    row-major order. *)
Definition np_where (mask : array2 Z) : list (Z * Z) :=
  concat (imap (fun j row =>
    omap id (imap (fun i m =>
      if m =? 0 then None else Some (Z.of_nat j, Z.of_nat i)) row)) mask).

(** [data[j, i] = values] with index lists [j], [i]. *)
Definition set_pixels (data : image) (positions : list (Z * Z)) (values : list float)
  : image :=
  fold_left (fun d pv => set_pixel d (Z.to_nat pv.1.1) (Z.to_nat pv.1.2) pv.2)
    (zip positions values) data.

(** [Pool(processes=n_jobs).map(f, xs)]: a pool needs at least one
    process; the results come back in the order of [xs], and an exception
    of a task is raised in the caller. *)
Definition pool_map {A B} (n_jobs : Z) (f : A -> res B) (xs : list A) : res (list B) :=
  if n_jobs <? 1 then Raise ValueError else mapM f xs.

Module TSMapEstimator.
Section Driver.
Context `{CK : CythonKernel} `{SP : SciPy}.


Definition flux_default (maps : sky_maps) (kernel : image) : res image :=
  counts ← maps_getitem (m_counts maps) "counts";
  background ← maps_getitem (m_background maps) "background";
  exposure ← maps_getitem (m_exposure maps) "exposure";
  let flux := arr_zip PrimFloat.div (arr_zip PrimFloat.sub counts background) exposure in
  let flux := fftconvolve flux kernel in
  let norm := np_sum (arr_map (fun k : float => (k * k)%float) kernel) in
  Ok (arr_map (fun f : float => (f / norm)%float) flux).

Definition mask_default (maps : sky_maps) (kernel : image) : res (array2 Z) :=
  exposure ← maps_getitem (m_exposure maps) "exposure";
  let mask := arr_map (fun _ : float => 0) exposure in
  (* mask boundary *)
  let slice_x := ((shape2 kernel).2 / 2, - (shape2 kernel).2 / 2 + 1) in
  let slice_y := ((shape2 kernel).1 / 2, - (shape2 kernel).1 / 2 + 1) in
  let mask := set_slice2 slice_y slice_x 1 mask in
  (* positions where exposure == 0 are not processed *)
  let mask :=
    arr_zip (fun m (e : float) => Z.land m (if (0 <? e)%float then 1 else 0))
      mask exposure in
  background ← maps_getitem (m_background maps) "background";
  Ok (arr_zip (fun m (b : float) => if (b =? 0)%float then 0 else m) mask background).

(** Lines 267-270 of [run]: the default mask, and-ed with the caller's
    'mask' when the maps hold one. *)
Definition processing_mask (maps : sky_maps) (kernel : image) : res (array2 Z) :=
  mask ← mask_default maps kernel;
  Ok match m_mask maps with
     | Some user_mask => arr_zip Z.land mask user_mask
     | None => mask
     end.

Definition sqrt_ts (map_ts : image) : image :=
  arr_map (fun ts : float =>
    if (0 <? ts)%float then PrimFloat.sqrt ts else (- PrimFloat.sqrt (- ts))%float)
    map_ts.

(** Lines 262-265 of [run]: one NaN-filled map of the shape of the
    counts per requested name. *)
Definition init_result (maps : sky_maps) (which : list string)
  : res (gmap string image) :=
  foldM (fun (result : gmap string image) name =>
    counts ← maps_getitem (m_counts maps) "counts";
    let data := arr_map (fun one : float => (nan * one)%float)
                  (arr_map (fun _ : float => 1%float) counts) in
    Ok (<[name := data]> result)) ∅ which.

(** Lines 272-275 of [run]: the flux seed map, for the Newton solver
    only. *)
Definition seed_flux (p : parameters) (maps : sky_maps) (kernel : image)
  : res (option image) :=
  if String.eqb (p_method p) "root newton"
  then f ← flux_default maps kernel; Ok (Some f)
  else Ok None.

(** [result[name].data[j, i] = [_[name] for _ in results]]: the right-hand
    side is evaluated before [result[name]]. *)
Definition collect (positions : list (Z * Z)) (results : list pixel_result)
    (result : gmap string image) (name : string) : res (gmap string image) :=
  values ← mapM (fun r => pixel_getitem r name) results;
  target ← dict_getitem result name;
  Ok (<[name := set_pixels target positions (pyval_float <$> values)]> result).

Definition run (p : parameters) (maps : sky_maps) (kernel : image)
    (which : which_arg) : res (gmap string image) :=
  let which :=
    match which with
    | WhichAll => ["ts"; "sqrt_ts"; "flux"; "flux_err"; "flux_ul"; "niter"]
    | WhichList names => names
    end in
  result ← init_result maps which;
  mask ← processing_mask maps kernel;
  flux ← seed_flux p maps kernel;
  counts ← maps_getitem (m_counts maps) "counts";
  background ← maps_getitem (m_background maps) "background";
  exposure ← maps_getitem (m_exposure maps) "exposure";
  (* Compute null statistics per pixel for the whole image *)
  let c_0 := _cash_cython counts background in
  let error_method :=
    if bool_decide ("flux_err" ∈ which) then p_error_method p else "none" in
  let ul_method :=
    if bool_decide ("flux_ul" ∈ which) then p_ul_method p else "none" in
  let wrap := fun position =>
    _ts_value position counts exposure background c_0 kernel flux (p_method p)
      error_method (p_error_sigma p) ul_method (p_ul_sigma p) (p_threshold p)
      (p_rtol p) in
  let positions := np_where mask in
  results ← pool_map (p_n_jobs p) wrap positions;
  (* Set TS values at given positions; unpacking the zipped positions
     into [j, i] needs a non-empty list *)
  _ ← (if bool_decide (positions = []) then Raise ValueError else Ok ());
  result ← foldM (collect positions results) result ["ts"; "flux"; "niter"];
  result ←
    (if bool_decide ("flux_err" ∈ which)
     then collect positions results result "flux_err" else Ok result);
  result ←
    (if bool_decide ("flux_ul" ∈ which)
     then collect positions results result "flux_ul" else Ok result);
  (* Compute sqrt(TS) values *)
  if bool_decide ("sqrt_ts" ∈ which)
  then ts ← dict_getitem result "ts"; Ok (<["sqrt_ts" := sqrt_ts ts]> result)
  else Ok result.

End Driver.
End TSMapEstimator.

(* ===================================================================== *)
(** ** Multi-scale helpers *)
(* ===================================================================== *)

(** The two methods of a result map that [compute_ts_image_multiscale]
    calls after the fit; the map class is outside this module. *)
Class MapOps (M : Type) : Type := {
  map_upsample : pyval -> bool -> Z -> M -> M;  (* factor, preserve_counts, order *)
  map_crop : Z * Z -> M -> M;                   (* crop_width *)
}.

(** Lines 444-452 of [compute_ts_image_multiscale], the body of
    [if downsampled:]: the loop over the zipped names and orders. *)
Definition upsample_results {M} `{MapOps M} (factor : pyval) (pad_width : Z * Z)
    (ts_results : gmap string M) : res (gmap string M) :=
  foldM (fun (ts_results : gmap string M) (name_order : string * Z) =>
    let '(name, order) := name_order in
    let preserve_counts := bool_decide (name ∈ ["flux"; "flux_err"]) in
    m ← dict_getitem ts_results name;
    let ts_results := <[name := map_upsample factor preserve_counts order m]> ts_results in
    m ← dict_getitem ts_results name;
    Ok (<[name := map_crop pad_width m]> ts_results))
  ts_results
  (zip ["ts"; "sqrt_ts"; "flux"; "flux_err"; "niter"] [1; 1; 1; 0]).

(** The names bound in the module's namespace: its imports, constants,
    functions and class. *)
Definition module_globals : list string :=
  ["absolute_import"; "division"; "print_function"; "unicode_literals";
   "logging"; "time"; "warnings"; "OrderedDict"; "partial"; "Pool"; "cpu_count";
   "np"; "Model2DKernel"; "Gaussian2DKernel"; "CustomKernel"; "Kernel2D";
   "_round_up_to_odd_integer"; "fits"; "shape_2N"; "symmetric_crop_pad_width";
   "multi_gauss_psf_kernel"; "WcsNDMap"; "SkyShell"; "_cash_cython";
   "_amplitude_bounds_cython"; "_cash_sum_cython"; "_f_cash_root_cython";
   "_x_best_leastsq"; "__all__"; "log"; "FLUX_FACTOR"; "MAX_NITER"; "RTOL";
   "_extract_array"; "f_cash"; "TSMapEstimator"; "compute_ts_image_multiscale";
   "compute_maximum_ts_image"; "_ts_value"; "_leastsq_iter_amplitude";
   "_root_amplitude"; "_root_amplitude_brentq"; "_compute_flux_err_covar";
   "_compute_flux_err_conf"].

(** Looking up a global name at run time. *)
Definition load_global (name : string) : res unit :=
  if bool_decide (name ∈ module_globals) then Ok () else Raise (NameError name).

(** One entry of the list given to [compute_maximum_ts_image], by the
    attributes the function reads. *)
Record scale_result : Type := {
  r_ts : image;
  r_niter : image;
  r_amplitude : image;
  r_scale : float;
  r_morphology : string;
}.

(** [np.dstack]: needs at least one array, and arrays of one shape; the
    result holds, per pixel, the values along the new axis. *)
Definition np_dstack (arrays : list image) : res (array2 (list float)) :=
  match arrays with
  | [] => Raise ValueError
  | first :: _ =>
      if bool_decide (Forall (fun a : image => map length a = map length first) arrays)
      then Ok (imap (fun j row =>
                 imap (fun i _ => omap (fun a : image => pixel a j i) arrays) row) first)
      else Raise ValueError
  end.

(** [np.maximum] of two floats, and [np.max] along the last axis: a NaN
    wins. *)
Definition np_maximum (a b : float) : float :=
  if PrimFloat.is_nan a then a
  else if PrimFloat.is_nan b then b
  else if (a <? b)%float then b else a.

Definition np_max (values : list float) : float :=
  match values with
  | [] => nan
  | v :: vs => fold_left np_maximum vs v
  end.

(** [a.astype('float32')], read back as a binary64 value. *)
Definition astype_float32 (x : float) : float :=
  match Prim2SF x with
  | S754_finite s m e => SF2Prim (binary_round 24 128 s m e)
  | _ => x
  end.

(** [a.astype('int16')] of a float: truncation towards zero, kept modulo
    2^16 in the signed range; 0 stands for the unspecified cast of NaN and
    the infinities. *)
Definition astype_int16 (x : float) : Z :=
  match Prim2SF x with
  | S754_finite s m e =>
      let magnitude := if 0 <=? e then Z.pos m * 2 ^ e else Z.pos m / 2 ^ (- e) in
      let z := if s then - magnitude else magnitude in
      (z + 32768) mod 65536 - 32768
  | _ => 0
  end.

(** The images of the returned list: name and data. *)
Inductive sky_image_data : Type :=
  | Float32Data (data : image)
  | Int16Data (data : array2 Z).

(** Lines 472-488 of [compute_maximum_ts_image]: the stacked arrays and
    the maxima [(ts_max, scale_max, niter_max, amplitude_max)]. *)
Definition maximum_arrays (ts_image_results : list scale_result)
  : res (image * image * image * image) :=
  (* Get data *)
  ts ← np_dstack (r_ts <$> ts_image_results);
  niter ← np_dstack (r_niter <$> ts_image_results);
  amplitude ← np_dstack (r_amplitude <$> ts_image_results);
  let scales := r_scale <$> ts_image_results in
  (* Set up max arrays *)
  let ts_max := arr_map np_max ts in
  let zeros := arr_map (fun _ : list float => 0%float) ts in
  (* [target[index] = values[:, :, idx_scale][index]] with
     [index = np.where(ts[:, :, idx_scale] == ts_max)] *)
  let assign (idx_scale : nat) (values : array2 float) (target : image) : image :=
    arr_zip (fun (tm : list float * float) (vt : float * float) =>
      match tm.1 !! idx_scale with
      | Some t => if (t =? tm.2)%float then vt.1 else vt.2
      | None => vt.2
      end) (arr_zip pair ts ts_max) (arr_zip pair values target) in
  let plane (idx_scale : nat) (a : array2 (list float)) : image :=
    arr_map (fun along : list float => default nan (along !! idx_scale)) a in
  let '(scale_max, niter_max, amplitude_max) :=
    fold_left (fun (acc : image * image * image) (entry : nat * float) =>
      let '(scale_max, niter_max, amplitude_max) := acc in
      let '(idx_scale, scale) := entry in
      (assign idx_scale (arr_map (fun _ => scale) ts) scale_max,
       assign idx_scale (plane idx_scale niter) niter_max,
       assign idx_scale (plane idx_scale amplitude) amplitude_max))
      (imap pair scales) (zeros, zeros, zeros) in
  Ok (ts_max, scale_max, niter_max, amplitude_max).

Definition compute_maximum_ts_image (ts_image_results : list scale_result)
  : res (list (string * sky_image_data)) :=
  '(ts_max, scale_max, niter_max, amplitude_max) ← maximum_arrays ts_image_results;
  morphology ←
    match ts_image_results with
    | first :: _ => Ok (r_morphology first)
    | [] => Raise IndexError
    end;
  (* the callee [SkyImageList] is looked up first, then [SkyImage] for the
     elements of its argument; 'scale' is not among the images *)
  _ ← load_global "SkyImageList";
  _ ← load_global "SkyImage";
  Ok [("ts", Float32Data (arr_map astype_float32 ts_max));
      ("niter", Int16Data (arr_map astype_int16 niter_max));
      ("amplitude", Float32Data (arr_map astype_float32 amplitude_max))].

(* ===================================================================== *)
(** ** A reference back end *)
(* ===================================================================== *)

(** An executable instance of the two interfaces, used to run the model
    on concrete inputs.  The statistic follows the formulas of the
    specification; the root finders are textbook stand-ins for scipy's. *)
Module Reference.

Open Scope float_scope.

Fixpoint atanh_series (n : nat) (k z2 term : float) : float :=
  match n with
  | O => 0
  | S n' => term / k + atanh_series n' (k + 2) z2 (term * z2)
  end.

(** Modelled from the spec: the natural logarithm that the statistic
    [2 * sum(model - counts * log(model))] calls (the C library's [log]
    inside the compiled module).  With [x = m * 2^e] and [m] in
    [[0.5, 1)], [log x = e * log 2 + 2 * atanh ((m - 1) / (m + 1))]; the
    series is cut after 24 terms.  Exact at 0, infinity and NaN, within a
    few ulps elsewhere. *)
Definition log (x : float) : float :=
  if x <? 0 then nan
  else if x =? 0 then neg_infinity
  else if x =? infinity then infinity
  else if PrimFloat.is_nan x then nan
  else
    let '(m, e) := Z.frexp x in
    let z := (m - 1) / (m + 1) in
    float_of_Z e * 0x1.62e42fefa39efp-1 + 2 * atanh_series 24 1 (z * z) z.

(** Modelled from the spec: the Cash statistic per pixel,
    [2 * (model - counts * log(model))]. *)
Definition cash (counts model : image) : image :=
  arr_zip (fun c m => 2 * (m - c * log m)) counts model.

(** Modelled from the spec: [cash_sum(counts, model)] is
    [2 * sum(model - counts * log(model))]. *)
Definition cash_sum (counts model : image) : float :=
  2 * np_sum (arr_zip (fun c m => m - c * log m) counts model).

(** Modelled from the spec: the derivative of the statistic along the
    amplitude, up to the positive factor [2 * FLUX_FACTOR]:
    [sum(model * (1 - counts / (background + x * FLUX_FACTOR * model)))]. *)
Definition f_cash_root (x : float) (counts background model : image) : float :=
  np_sum (arr_zip PrimFloat.mul model
            (arr_zip (fun c t => 1 - c / t) counts (total_model x background model))).

(** Modelled from the spec: [amplitude_min_total] is the amplitude that
    keeps [background + amplitude * FLUX_FACTOR * model >= 0] everywhere,
    minus the least [background / model] over the pixels with a positive
    model, in units of [FLUX_FACTOR]; [amplitude_min] and [amplitude_max]
    bracket the sign change of the derivative: the least and the greatest
    [(counts - background) / model]. *)
Definition amplitude_bounds (counts background model : image)
  : float * float * float :=
  let px := zip (concat counts) (zip (concat background) (concat model)) in
  let px := filter (fun p => (0 <? p.2.2) = true) px in
  let fmin := fun a b => if b <? a then b else a in
  let fmax := fun a b => if a <? b then b else a in
  let sn_min_total := fold_left (fun acc p => fmin acc (p.2.1 / p.2.2)) px infinity in
  let lo := fold_left (fun acc p => fmin acc ((p.1 - p.2.1) / p.2.2)) px infinity in
  let hi := fold_left (fun acc p => fmax acc ((p.1 - p.2.1) / p.2.2)) px neg_infinity in
  (lo / FLUX_FACTOR, hi / FLUX_FACTOR, - sn_min_total / FLUX_FACTOR).

(** Modelled from the spec: the solution of the weighted linear
    least-squares problem [sum((counts - background - x * model)^2 / w)]. *)
Definition x_best_leastsq (counts background model weights : image) : float :=
  let num := arr_zip PrimFloat.div
    (arr_zip PrimFloat.mul (arr_zip PrimFloat.sub counts background) model) weights in
  let den := arr_zip PrimFloat.div (arr_map (fun m => m * m) model) weights in
  np_sum num / np_sum den.

#[export] Instance kernel : CythonKernel := {
  _cash_cython := cash;
  _cash_sum_cython := cash_sum;
  _amplitude_bounds_cython := amplitude_bounds;
  _f_cash_root_cython := f_cash_root;
  _x_best_leastsq := x_best_leastsq;
}.

(** Bisection over a bracket: [ValueError] without a sign change, the
    midpoint and the iterations used once the bracket is within [rtol],
    [RuntimeError] when [maxiter] is spent. *)
Fixpoint bisect (f : float -> float) (rtol : float) (n : nat) (iter : Z)
    (a b fa : float) : res (float * Z) :=
  match n with
  | O => Raise RuntimeError
  | S n' =>
      let mid := (a + b) / 2 in
      let fm := f mid in
      if (fm =? 0) || (PrimFloat.abs (b - a) <? 2 * rtol * PrimFloat.abs mid)
      then Ok (mid, (iter + 1)%Z)
      else if (fa * fm <? 0)
      then bisect f rtol n' (iter + 1)%Z a mid fa
      else bisect f rtol n' (iter + 1)%Z mid b fm
  end.

Definition bracket_root (f : float -> float) (a b : float) (maxiter : Z)
    (rtol : float) : res (float * Z) :=
  let fa := f a in
  let fb := f b in
  if fa =? 0 then Ok (a, 0%Z)
  else if fb =? 0 then Ok (b, 0%Z)
  else if fa * fb <? 0 then bisect f rtol (Z.to_nat maxiter) 0%Z a b fa
  else Raise ValueError.

(** The secant iteration, started at [x0] and a point next to it. *)
Fixpoint secant (f : float -> float) (tol : float) (n : nat)
    (p0 q0 p1 q1 : float) : res float :=
  match n with
  | O => Raise RuntimeError
  | S n' =>
      if q1 =? q0 then Ok ((p1 + p0) / 2)
      else
        let p := p1 - q1 * (p1 - p0) / (q1 - q0) in
        if PrimFloat.abs (p - p1) <? tol then Ok p
        else secant f tol n' p1 q1 p (f p)
  end.

Definition secant_root (f : float -> float) (x0 : float) (maxiter : Z)
    (tol : float) : res float :=
  let tiny := 0x1.a36e2eb1c432dp-14 in  (* 1e-4 *)
  let p1 := if 0 <=? x0 then x0 * (1 + tiny) + tiny else x0 * (1 + tiny) - tiny in
  secant f tol (Z.to_nat maxiter) x0 (f x0) p1 (f p1).

(** Direct convolution over the overlap, [mode='same']. *)
Definition convolve_same (a kernel : image) : image :=
  let '(kh, kw) := shape2 kernel in
  imap (fun j row =>
    imap (fun i _ =>
      np_sum (imap (fun u krow =>
        imap (fun v k =>
          let jj := (Z.of_nat j + kh / 2 - Z.of_nat u)%Z in
          let ii := (Z.of_nat i + kw / 2 - Z.of_nat v)%Z in
          if ((0 <=? jj) && (0 <=? ii))%Z
          then match pixel a (Z.to_nat jj) (Z.to_nat ii) with
               | Some x => x * k
               | None => 0
               end
          else 0) krow) kernel)) row) a.

Lemma bisect_raises f rtol n iter a b fa e :
  bisect f rtol n iter a b fa = Raise e -> e = RuntimeError.
Proof.
  revert iter a b fa.
  induction n as [|n IH]; intros iter a b fa; simpl.
  - congruence.
  - destruct (_ || _); [discriminate|].
    destruct (_ <? _); apply IH.
Qed.

Lemma bracket_root_raises f a b maxiter rtol e :
  bracket_root f a b maxiter rtol = Raise e -> e = RuntimeError \/ e = ValueError.
Proof.
  unfold bracket_root.
  destruct (f a =? 0); [discriminate|].
  destruct (f b =? 0); [discriminate|].
  destruct (f a * f b <? 0).
  - intros H. left. eapply bisect_raises, H.
  - intros [= <-]. now right.
Qed.

Lemma secant_raises f tol n p0 q0 p1 q1 e :
  secant f tol n p0 q0 p1 q1 = Raise e -> e = RuntimeError.
Proof.
  revert p0 q0 p1 q1.
  induction n as [|n IH]; intros p0 q0 p1 q1; simpl.
  - congruence.
  - destruct (q1 =? q0); [discriminate|].
    destruct (_ <? tol); [discriminate|]. apply IH.
Qed.

Lemma convolve_same_shape a k : map length (convolve_same a k) = map length a.
Proof.
  unfold convolve_same. destruct (shape2 k) as [kh kw].
  apply list_eq. intros j.
  rewrite !(list_lookup_fmap length), list_lookup_imap.
  destruct (a !! j) as [row|]; cbn; [|reflexivity].
  now rewrite length_imap.
Qed.

#[export] Instance scipy : SciPy := {
  brentq := bracket_root;
  newton := secant_root;
  fftconvolve := convolve_same;
  fftconvolve_shape := convolve_same_shape;
  brentq_raises := bracket_root_raises;
  newton_raises := fun f x0 maxiter tol e => secant_raises f tol _ _ _ _ _ e;
}.

End Reference.

(* ===================================================================== *)
(** ** Predicates of the statements *)
(* ===================================================================== *)

(** The input maps [run] requires, all of one shape. *)
Definition well_formed (maps : sky_maps) : Prop :=
  exists counts background exposure,
    m_counts maps = Some counts /\ m_background maps = Some background /\
    m_exposure maps = Some exposure /\
    map length counts = map length exposure /\
    map length background = map length exposure.




(** All rows of an array have [n] entries. *)
Definition rectangular {A} (n : nat) (a : array2 A) : Prop :=
  Forall (fun row : list A => length row = n) a.

(** A kernel of odd shape, as astropy's kernels are: the windows of
    [_ts_value] then have the shape of the kernel. *)
Definition odd_kernel (kernel : image) : Prop :=
  Z.odd (shape2 kernel).1 = true /\ Z.odd (shape2 kernel).2 = true.

(** The names [run] works with. *)
Definition which_names (which : which_arg) : list string :=
  match which with
  | WhichAll => ["ts"; "sqrt_ts"; "flux"; "flux_err"; "flux_ul"; "niter"]
  | WhichList names => names
  end.






Section Task.
Context `{CK : CythonKernel} `{SP : SciPy}.

(** [wrap = partial(_ts_value, counts=..., ...)] of [run]. *)
Definition wrap (p : parameters) (counts background exposure kernel : image)
    (flux : option image) (names : list string) (position : Z * Z)
  : res pixel_result :=
  _ts_value position counts exposure background (_cash_cython counts background)
    kernel flux (p_method p)
    (if bool_decide ("flux_err" ∈ names) then p_error_method p else "none")
    (p_error_sigma p)
    (if bool_decide ("flux_ul" ∈ names) then p_ul_method p else "none")
    (p_ul_sigma p) (p_threshold p) (p_rtol p).

End Task.

Arguments wrap : simpl never.

(* ===================================================================== *)
(** ** Inputs for worked cases *)
(* ===================================================================== *)

Module Inputs.
Open Scope float_scope.

(** The example scenario of the specification: a 3x3 image with a source
    in the middle, flat background and exposure, and a 3x3 kernel of unit
    sum. *)
Definition counts : image := [[2; 3; 2]; [5; 9; 4]; [2; 3; 1]].
Definition background : image := [[1; 1; 1]; [1; 1; 1]; [1; 1; 1]].
Definition exposure : image := [[100; 100; 100]; [100; 100; 100]; [100; 100; 100]].
Definition kernel : image :=
  [[0.0625; 0.125; 0.0625]; [0.125; 0.25; 0.125]; [0.0625; 0.125; 0.0625]].

(** An empty field: no counts over the same background and exposure. *)
Definition no_counts : image := [[0; 0; 0]; [0; 0; 0]; [0; 0; 0]].

(** A flux seed map with a deficit everywhere, as [flux_default] yields
    over an empty field. *)
Definition deficit_flux : image :=
  [[-0.03125; -0.03125; -0.03125]; [-0.03125; -0.03125; -0.03125];
   [-0.03125; -0.03125; -0.03125]].

Definition centre : Z * Z := (1%Z, 1%Z).

Definition maps : sky_maps :=
  {| m_counts := Some counts; m_background := Some background;
     m_exposure := Some exposure; m_mask := None |}.

Definition empty_field : sky_maps :=
  {| m_counts := Some no_counts; m_background := Some background;
     m_exposure := Some exposure; m_mask := None |}.

(** A 5x5 field whose interior holds one pixel without exposure, at
    (1, 1), and one pixel without background, at (2, 3). *)
Definition wide_counts : image :=
  [[1; 0; 2; 1; 0]; [0; 2; 3; 2; 1]; [1; 5; 9; 4; 0]; [2; 2; 3; 1; 1]; [0; 1; 0; 2; 1]].
Definition wide_background : image :=
  [[1; 1; 1; 1; 1]; [1; 1; 1; 1; 1]; [1; 1; 1; 0; 1]; [1; 1; 1; 1; 1]; [1; 1; 1; 1; 1]].
Definition wide_exposure : image :=
  [[100; 100; 100; 100; 100]; [100; 0; 100; 100; 100]; [100; 100; 100; 100; 100];
   [100; 100; 100; 100; 100]; [100; 100; 100; 100; 100]].

Definition wide_maps : sky_maps :=
  {| m_counts := Some wide_counts; m_background := Some wide_background;
     m_exposure := Some wide_exposure; m_mask := None |}.

(** The default configuration of the estimator. *)
Definition defaults : parameters :=
  {| p_method := "root brentq"; p_error_method := "covar"; p_error_sigma := 1;
     p_ul_method := "covar"; p_ul_sigma := 2; p_n_jobs := 1;
     p_threshold := None; p_rtol := RTOL |}.

(** A series of two scales over a 1x2 image in which the second scale
    has the greater 'ts' at both pixels. *)
Definition dominated_series : list scale_result :=
  [ {| r_ts := [[1; 2]]%float; r_niter := [[3; 4]]%float;
       r_amplitude := [[0.5; 0.25]]%float; r_scale := 0%float;
       r_morphology := "Gaussian2D" |};
    {| r_ts := [[5; 6]]%float; r_niter := [[7; 8]]%float;
       r_amplitude := [[1.5; 1.25]]%float; r_scale := 0.5%float;
       r_morphology := "Gaussian2D" |} ].

End Inputs.

(** A caller's mask over the 5x5 field: 1 everywhere but for a 2 at the
    centre and a 0 next to it. *)
Definition user_mask_5x5 : array2 Z :=
  [[1; 1; 1; 1; 1]; [1; 1; 1; 1; 1]; [1; 0; 2; 1; 1]; [1; 1; 1; 1; 1]; [1; 1; 1; 1; 1]].

Definition masked_maps : sky_maps :=
  {| m_counts := Some Inputs.wide_counts; m_background := Some Inputs.wide_background;
     m_exposure := Some Inputs.wide_exposure; m_mask := Some user_mask_5x5 |}.


(** Modelled from the spec: a result map reduced to its pixel shape.
    Upsampling by an integer factor multiplies both axes by it; cropping
    takes the crop width off both ends of its axis. *)
#[global] Instance shape_ops : MapOps (Z * Z) := {
  map_upsample factor _ _ shape :=
    match factor with
    | PyInt f => (shape.1 * f, shape.2 * f)
    | PyFloat _ => shape
    end;
  map_crop width shape := (shape.1 - 2 * width.1, shape.2 - 2 * width.2);
}.

(* ===================================================================== *)
(** ** Facts about float comparisons *)
(* ===================================================================== *)

Section FloatFacts.
Open Scope float_scope.




End FloatFacts.

(* ===================================================================== *)
(** ** The per-pixel evaluator *)
(* ===================================================================== *)

Section PixelFacts.
Context `{CK : CythonKernel} `{SP : SciPy}.

(** The threshold path: the 3-tuple of the unsigned improvement, the
    scaled seed and 0. *)
Lemma ts_value_threshold_path position counts exposure background c_0 kernel f
    method error_method error_sigma ul_method ul_sigma threshold rtol seed :
  getitem2 f position = Ok seed ->
  let c_1 := f_cash seed (window counts kernel position)
               (window background kernel position)
               (pixel_model exposure kernel position) in
  (null_statistic c_0 kernel position - c_1 <? threshold)%float = true ->
  _ts_value position counts exposure background c_0 kernel (Some f) method
    error_method error_sigma ul_method ul_sigma (Some threshold) rtol
  = Ok (PixelTuple (null_statistic c_0 kernel position - c_1)%float
          (seed * FLUX_FACTOR)%float 0).
Proof.
  intros Hseed c_1 Hlow. unfold _ts_value.
  rewrite Hseed. cbn. fold c_1. rewrite Hlow. reflexivity.
Qed.

(** Without a threshold, or above it, the evaluator is the fit. *)
Lemma ts_value_no_threshold position counts exposure background c_0 kernel flux
    method error_method error_sigma ul_method ul_sigma rtol :
  _ts_value position counts exposure background c_0 kernel flux method
    error_method error_sigma ul_method ul_sigma None rtol
  = ts_fit position (window counts kernel position)
      (window background kernel position) (pixel_model exposure kernel position)
      (null_statistic c_0 kernel position) flux method error_method error_sigma
      ul_method ul_sigma rtol.
Proof. reflexivity. Qed.

(** The dict of the fitting path always holds 'ts', 'flux' and 'niter',
    with the sign convention on 'ts'. *)
Lemma ts_fit_fields position counts_ background_ model c_0 flux method
    error_method error_sigma ul_method ul_sigma rtol r :
  ts_fit position counts_ background_ model c_0 flux method error_method
    error_sigma ul_method ul_sigma rtol = Ok r ->
  exists amplitude niter d,
    fit_amplitude position counts_ background_ model flux method rtol
      = Ok (amplitude, niter) /\
    r = PixelDict d /\
    d !! "ts" = Some (PyFloat ((c_0 - f_cash amplitude counts_ background_ model)
                               * np_sign amplitude)%float) /\
    d !! "flux" = Some (PyFloat (amplitude * FLUX_FACTOR)%float) /\
    d !! "niter" = Some (PyInt niter).
Proof.
  unfold ts_fit.
  destruct (fit_amplitude _ _ _ _ _ _ _) as [[amplitude niter]|e]; [|discriminate].
  cbn. intros H. exists amplitude, niter.
  destruct (String.eqb error_method "covar"); cbn in H.
  - destruct (String.eqb ul_method "covar"); cbn in H;
      [|destruct (String.eqb ul_method "conf"); cbn in H].
    + injection H as <-. eexists. repeat split; reflexivity.
    + destruct (_compute_flux_err_conf _ _ _ _ _ ul_sigma); [|discriminate].
      injection H as <-. eexists. repeat split; reflexivity.
    + injection H as <-. eexists. repeat split; reflexivity.
  - destruct (String.eqb error_method "conf"); cbn in H.
    + destruct (_compute_flux_err_conf _ _ _ _ _ error_sigma); [|discriminate].
      cbn in H.
      destruct (String.eqb ul_method "covar"); cbn in H;
        [|destruct (String.eqb ul_method "conf"); cbn in H].
      * injection H as <-. eexists. repeat split; reflexivity.
      * destruct (_compute_flux_err_conf _ _ _ _ _ ul_sigma); [|discriminate].
        injection H as <-. eexists. repeat split; reflexivity.
      * injection H as <-. eexists. repeat split; reflexivity.
    + destruct (String.eqb ul_method "covar"); cbn in H;
        [|destruct (String.eqb ul_method "conf"); cbn in H].
      * discriminate.
      * destruct (_compute_flux_err_conf _ _ _ _ _ ul_sigma); [|discriminate].
        injection H as <-. eexists. repeat split; reflexivity.
      * injection H as <-. eexists. repeat split; reflexivity.
Qed.

End PixelFacts.

(* ===================================================================== *)
(** ** The threshold path of the per-pixel evaluator *)
(* ===================================================================== *)

Section ThresholdPath.
Context `{CK : CythonKernel} `{SP : SciPy}.

(** Collecting a field by name over results that hold a tuple never
    succeeds. *)
Lemma mapM_getitem_tuple name ts flux niter (results : list pixel_result) :
  PixelTuple ts flux niter ∈ results ->
  exists e, mapM (fun r => pixel_getitem r name) results = Raise e.
Proof.
  induction results as [|r results IH]; intros Hin.
  - inversion Hin.
  - apply elem_of_cons in Hin as [<-|Hin].
    + exists TypeError. reflexivity.
    + destruct (IH Hin) as [e He]. cbn.
      destruct (pixel_getitem r name) as [v|e']; cbn.
      * rewrite He. cbn. eauto.
      * eauto.
Qed.

(** C2: where [threshold] is set and the improvement at the seed is below
    it, [_ts_value] returns the 3-tuple [(c_0 - c_1, seed * FLUX_FACTOR, 0)]
    and not a dict: indexing it by a name raises [TypeError], so the
    driver's collection of 'ts', 'flux' and 'niter' cannot succeed for a
    list of results that holds it. *)
Theorem threshold_path_returns_tuple position counts exposure background c_0
    kernel f method error_method error_sigma ul_method ul_sigma threshold rtol seed :
  getitem2 f position = Ok seed ->
  (null_statistic c_0 kernel position
   - f_cash seed (window counts kernel position) (window background kernel position)
       (pixel_model exposure kernel position) <? threshold)%float = true ->
  exists ts,
    _ts_value position counts exposure background c_0 kernel (Some f) method
      error_method error_sigma ul_method ul_sigma (Some threshold) rtol
    = Ok (PixelTuple ts (seed * FLUX_FACTOR)%float 0) /\
    (forall name, pixel_getitem (PixelTuple ts (seed * FLUX_FACTOR)%float 0) name
                  = Raise TypeError) /\
    (forall positions results result name,
       PixelTuple ts (seed * FLUX_FACTOR)%float 0 ∈ results ->
       exists e, TSMapEstimator.collect positions results result name = Raise e).
Proof.
  intros Hseed Hlow. eexists. split; [|split].
  - apply ts_value_threshold_path; eassumption.
  - reflexivity.
  - intros positions results result name Hin.
    destruct (mapM_getitem_tuple name _ _ _ _ Hin) as [e He].
    exists e. unfold TSMapEstimator.collect. rewrite He. reflexivity.
Qed.

End ThresholdPath.

(** The threshold path at the centre of an empty field, with the
    reference back end. *)
Lemma threshold_path_returns_tuple_witness :
  exists ts,
    _ts_value (CK := Reference.kernel) (SP := Reference.scipy)
      Inputs.centre Inputs.no_counts Inputs.exposure Inputs.background
      (Reference.cash Inputs.no_counts Inputs.background) Inputs.kernel
      (Some Inputs.deficit_flux) "root newton" "covar" 1 "covar" 2 (Some 1%float) RTOL
    = Ok (PixelTuple ts (-0.03125 * FLUX_FACTOR)%float 0) /\
    (forall name, pixel_getitem (PixelTuple ts (-0.03125 * FLUX_FACTOR)%float 0) name
                  = Raise TypeError) /\
    (forall positions results result name,
       PixelTuple ts (-0.03125 * FLUX_FACTOR)%float 0 ∈ results ->
       exists e, TSMapEstimator.collect positions results result name = Raise e).
Proof.
  apply (threshold_path_returns_tuple (CK := Reference.kernel) (SP := Reference.scipy)
           Inputs.centre Inputs.no_counts Inputs.exposure Inputs.background
           (Reference.cash Inputs.no_counts Inputs.background) Inputs.kernel
           Inputs.deficit_flux "root newton" "covar" 1 "covar" 2 1%float RTOL
           (-0.03125)%float).
  - vm_compute. reflexivity.
  - vm_compute. reflexivity.
Defined.

(** The driver on the empty field with [method = 'root newton'] and
    [threshold = 1]: the only processed pixel takes the threshold path and
    the collection of 'ts' raises. *)
Lemma run_threshold_raises_TypeError :
  TSMapEstimator.run (CK := Reference.kernel) (SP := Reference.scipy)
    {| p_method := "root newton"; p_error_method := "covar"; p_error_sigma := 1;
       p_ul_method := "covar"; p_ul_sigma := 2; p_n_jobs := 1;
       p_threshold := Some 1%float; p_rtol := RTOL |}
    Inputs.empty_field Inputs.kernel WhichAll
  = Raise TypeError.
Proof. vm_compute. reflexivity. Qed.

(** C1: at the centre of the empty field the threshold path returns a
    finite positive 'ts' next to a finite negative flux: the returned
    statistic is the bare improvement [c_0 - c_1], not
    [(c_0 - c_1) * sign(amplitude)], and its sign differs from the sign of
    the flux. *)
Theorem threshold_path_sign_mismatch :
  let c_0 := null_statistic (Reference.cash Inputs.no_counts Inputs.background)
               Inputs.kernel Inputs.centre in
  let c_1 := f_cash (CK := Reference.kernel) (-0.03125)%float
               (window Inputs.no_counts Inputs.kernel Inputs.centre)
               (window Inputs.background Inputs.kernel Inputs.centre)
               (pixel_model Inputs.exposure Inputs.kernel Inputs.centre) in
  exists ts flux,
    _ts_value (CK := Reference.kernel) (SP := Reference.scipy)
      Inputs.centre Inputs.no_counts Inputs.exposure Inputs.background
      (Reference.cash Inputs.no_counts Inputs.background) Inputs.kernel
      (Some Inputs.deficit_flux) "root newton" "covar" 1 "covar" 2 (Some 1%float) RTOL
    = Ok (PixelTuple ts flux 0) /\
    ts = (c_0 - c_1)%float /\
    flux = (-0.03125 * FLUX_FACTOR)%float /\
    is_finite ts = true /\ is_finite flux = true /\
    np_sign ts = 1%float /\ np_sign flux = (-1)%float /\
    (ts =? (c_0 - c_1) * np_sign (-0.03125))%float = false.
Proof.
  intros c_0 c_1. do 2 eexists.
  split; [vm_compute; reflexivity|].
  repeat split; vm_compute; reflexivity.
Qed.

(* ===================================================================== *)
(** ** The amplitude solvers *)
(* ===================================================================== *)

Section Solvers.
Context `{CK : CythonKernel} `{SP : SciPy}.





(** C4: [_root_amplitude_brentq] never raises.  When scipy's [brentq]
    returns a root, the result is [max(root, amplitude_min_total)] with
    the iterations used; when it raises (an invalid bracket, or no
    convergence within [MAX_NITER] = 20 iterations), the result is NaN
    with [niter = MAX_NITER]. *)
Theorem root_amplitude_brentq_never_raises counts background model rtol :
  let bounds := _amplitude_bounds_cython counts background model in
  let call := brentq (fun x => _f_cash_root_cython x counts background model)
                bounds.1.1 bounds.1.2 MAX_NITER rtol in
  (exists amplitude niter,
     _root_amplitude_brentq counts background model rtol = Ok (amplitude, niter)) /\
  (forall root iterations,
     (0 <? np_sum counts)%float = true ->
     call = Ok (root, iterations) ->
     _root_amplitude_brentq counts background model rtol
     = Ok (py_max root (amplitude_min_total counts background model), iterations)) /\
  (forall e,
     (0 <? np_sum counts)%float = true ->
     call = Raise e ->
     _root_amplitude_brentq counts background model rtol = Ok (nan, MAX_NITER)) /\
  MAX_NITER = 20.
Proof.
  intros bounds call. subst call bounds.
  unfold _root_amplitude_brentq, amplitude_min_total.
  destruct (_amplitude_bounds_cython counts background model) as [[lo hi] tot]. cbn.
  split; [|split; [|split]].
  - destruct (0 <? np_sum counts)%float; cbn; [|eauto].
    destruct (brentq _ lo hi MAX_NITER rtol) as [[root it]|e] eqn:E; cbn; [eauto|].
    apply brentq_raises in E as [-> | ->]; cbn; eauto.
  - intros root it -> ->. reflexivity.
  - intros e -> E. rewrite E. cbn.
    apply brentq_raises in E as [-> | ->]; reflexivity.
  - reflexivity.
Qed.

End Solvers.


(** C3, for the Newton solver on the empty field.  The
    counts sum to zero, yet the result is not [(amplitude_min_total, 0)]:
    the solver has no guard on the counts, the iteration stalls next to
    its seed, far above the bound. *)
Theorem root_amplitude_ignores_zero_counts :
  (np_sum Inputs.no_counts =? 0)%float = true /\
  exists amplitude niter,
    _root_amplitude (CK := Reference.kernel) (SP := Reference.scipy)
      Inputs.no_counts Inputs.background
      (pixel_model Inputs.exposure Inputs.kernel Inputs.centre) (-0.03125)%float RTOL
    = Ok (amplitude, niter) /\
    (amplitude =? amplitude_min_total (CK := Reference.kernel)
                    Inputs.no_counts Inputs.background
                    (pixel_model Inputs.exposure Inputs.kernel Inputs.centre))%float
    = false.
Proof.
  split; [vm_compute; reflexivity|].
  do 2 eexists. split; vm_compute; reflexivity.
Qed.

(** The bracketed-root solver on the example scenario. *)
Lemma root_amplitude_brentq_never_raises_witness :
  exists amplitude niter,
    _root_amplitude_brentq (CK := Reference.kernel) (SP := Reference.scipy)
      Inputs.counts Inputs.background
      (pixel_model Inputs.exposure Inputs.kernel Inputs.centre) RTOL
    = Ok (amplitude, niter).
Proof.
  exact (proj1 (root_amplitude_brentq_never_raises
                  (CK := Reference.kernel) (SP := Reference.scipy)
                  Inputs.counts Inputs.background
                  (pixel_model Inputs.exposure Inputs.kernel Inputs.centre) RTOL)).
Defined.

(* ===================================================================== *)
(** ** Errors and upper limits from the covariance *)
(* ===================================================================== *)

Section Covariance.
Context `{CK : CythonKernel} `{SP : SciPy}.

(** The closed form of the 1-sigma error. *)
Lemma compute_flux_err_covar_closed_form x counts background model :
  _compute_flux_err_covar x counts background model
  = PrimFloat.sqrt
      (1 / np_sum
             (arr_zip PrimFloat.div
                (arr_zip PrimFloat.mul
                   (arr_map (fun m : float => (m * m)%float) model) counts)
                (arr_map (fun t : float => (t * t)%float)
                   (arr_zip PrimFloat.add background
                      (arr_map (PrimFloat.mul (x * FLUX_FACTOR)) model))))).
Proof. reflexivity. Qed.

(** C5, as the code has it: with [error_method = 'covar'] the reported
    error is the closed form sigma times [error_sigma]; with
    [ul_method = 'covar'] the upper limit is [flux + ul_sigma * flux_err],
    built from the error already scaled, that is
    [flux + ul_sigma * (sigma * error_sigma)]. *)
Theorem covar_upper_limit_uses_scaled_error position counts exposure background c_0
    kernel flux method error_sigma ul_sigma rtol amplitude niter :
  fit_amplitude position (window counts kernel position)
    (window background kernel position) (pixel_model exposure kernel position)
    flux method rtol = Ok (amplitude, niter) ->
  let sigma := _compute_flux_err_covar amplitude (window counts kernel position)
                 (window background kernel position)
                 (pixel_model exposure kernel position) in
  exists d,
    _ts_value position counts exposure background c_0 kernel flux method
      "covar" error_sigma "covar" ul_sigma None rtol = Ok (PixelDict d) /\
    d !! "flux" = Some (PyFloat (amplitude * FLUX_FACTOR)%float) /\
    d !! "flux_err" = Some (PyFloat (sigma * float_of_Z error_sigma)%float) /\
    d !! "flux_ul"
      = Some (PyFloat (amplitude * FLUX_FACTOR
                       + float_of_Z ul_sigma * (sigma * float_of_Z error_sigma))%float).
Proof.
  intros Hfit sigma. rewrite ts_value_no_threshold. unfold ts_fit.
  rewrite Hfit. cbn. eexists. repeat split; reflexivity.
Qed.

End Covariance.

(** The example scenario with [error_sigma = 2] and [ul_sigma = 2]: the
    upper limit lies four sigma above the flux, not two. *)
Lemma covar_upper_limit_uses_scaled_error_witness :
  exists amplitude niter sigma d,
    fit_amplitude (CK := Reference.kernel) (SP := Reference.scipy) Inputs.centre
      (window Inputs.counts Inputs.kernel Inputs.centre)
      (window Inputs.background Inputs.kernel Inputs.centre)
      (pixel_model Inputs.exposure Inputs.kernel Inputs.centre)
      None "root brentq" RTOL = Ok (amplitude, niter) /\
    sigma = _compute_flux_err_covar amplitude
              (window Inputs.counts Inputs.kernel Inputs.centre)
              (window Inputs.background Inputs.kernel Inputs.centre)
              (pixel_model Inputs.exposure Inputs.kernel Inputs.centre) /\
    _ts_value (CK := Reference.kernel) (SP := Reference.scipy) Inputs.centre
      Inputs.counts Inputs.exposure Inputs.background
      (Reference.cash Inputs.counts Inputs.background) Inputs.kernel None
      "root brentq" "covar" 2 "covar" 2 None RTOL = Ok (PixelDict d) /\
    d !! "flux" = Some (PyFloat (amplitude * FLUX_FACTOR)%float) /\
    d !! "flux_err" = Some (PyFloat (sigma * 2)%float) /\
    d !! "flux_ul" = Some (PyFloat (amplitude * FLUX_FACTOR + 2 * (sigma * 2))%float) /\
    ((amplitude * FLUX_FACTOR + 2 * (sigma * 2)) - amplitude * FLUX_FACTOR
       =? 2 * sigma)%float = false /\
    (3.5 * sigma <? (amplitude * FLUX_FACTOR + 2 * (sigma * 2))
                    - amplitude * FLUX_FACTOR)%float = true.
Proof.
  assert (Hfit :
    fit_amplitude (CK := Reference.kernel) (SP := Reference.scipy) Inputs.centre
      (window Inputs.counts Inputs.kernel Inputs.centre)
      (window Inputs.background Inputs.kernel Inputs.centre)
      (pixel_model Inputs.exposure Inputs.kernel Inputs.centre)
      None "root brentq" RTOL = Ok (228906250000%float, 11))
    by (vm_compute; reflexivity).
  destruct (covar_upper_limit_uses_scaled_error
              (CK := Reference.kernel) (SP := Reference.scipy) Inputs.centre
              Inputs.counts Inputs.exposure Inputs.background
              (Reference.cash Inputs.counts Inputs.background) Inputs.kernel None
              "root brentq" 2 2 RTOL _ _ Hfit) as (d & Hd & Hflux & Herr & Hul).
  do 3 eexists. exists d.
  split; [exact Hfit|]. split; [reflexivity|].
  split; [exact Hd|]. split; [exact Hflux|]. split; [exact Herr|].
  split; [exact Hul|]. split; vm_compute; reflexivity.
Defined.

(* ===================================================================== *)
(** ** Arrays: pixels under the elementwise operations *)
(* ===================================================================== *)

Lemma lookup_map {A B} (f : A -> B) (l : list A) i : map f l !! i = f <$> l !! i.
Proof. apply (list_lookup_fmap f l i). Qed.

Section ArrayFacts.
Context {A B C : Type}.


Lemma pixel_arr_zip (f : A -> B -> C) (a : array2 A) (b : array2 B) j i :
  pixel (arr_zip f a b) j i
  = match pixel a j i, pixel b j i with
    | Some x, Some y => Some (f x y)
    | _, _ => None
    end.
Proof.
  unfold pixel, arr_zip. rewrite lookup_zip_with.
  destruct (a !! j) as [ra|]; cbn; [|reflexivity].
  destruct (b !! j) as [rb|]; cbn.
  - rewrite lookup_zip_with.
    destruct (ra !! i); cbn; [|reflexivity]. destruct (rb !! i); reflexivity.
  - destruct (ra !! i); reflexivity.
Qed.

Lemma pixel_set_slice2 (sy sx : Z * Z) (v : A) (a : array2 A) j i :
  pixel (set_slice2 sy sx v a) j i
  = match a !! j with
    | Some row =>
        (fun old =>
           if in_slice (Z.of_nat (length a)) sy.1 sy.2 (Z.of_nat j)
              && in_slice (Z.of_nat (length row)) sx.1 sx.2 (Z.of_nat i)
           then v else old) <$> row !! i
    | None => None
    end.
Proof.
  unfold pixel, set_slice2. rewrite list_lookup_imap.
  destruct (a !! j) as [row|]; cbn; [|reflexivity].
  apply list_lookup_imap.
Qed.


End ArrayFacts.

(** The positions that [np.where] yields are the non-zero pixels. *)
Lemma elem_of_np_where (mask : array2 Z) (p : Z * Z) :
  p ∈ np_where mask ->
  exists j i m, p = (Z.of_nat j, Z.of_nat i) /\ pixel mask j i = Some m /\ m <> 0.
Proof.
  unfold np_where. rewrite list_elem_of_In, in_concat.
  intros (l & Hl & Hp).
  apply list_elem_of_In in Hl. apply list_elem_of_In in Hp.
  apply elem_of_lookup_imap_1 in Hl as (j & row & -> & Hrow).
  apply list_elem_of_omap in Hp as (x & Hx & Hid).
  apply elem_of_lookup_imap_1 in Hx as (i & m & -> & Hm).
  exists j, i, m. unfold pixel. rewrite Hrow.
  destruct (Z.eqb_spec m 0); cbn in Hid; [discriminate|].
  injection Hid as <-. auto.
Qed.



(* ===================================================================== *)
(** ** The driver: mask and result maps *)
(* ===================================================================== *)

Lemma bind_Ok {A B} (m : res A) (k : A -> res B) (b : B) :
  m ≫= k = Ok b -> exists a, m = Ok a /\ k a = Ok b.
Proof. destruct m as [a|e]; cbn; [eauto|discriminate]. Qed.

Lemma Ok_inj {A} (a b : A) : Ok a = Ok b -> a = b.
Proof. congruence. Qed.


Lemma maps_getitem_Ok {A} (entry : option A) key a :
  maps_getitem entry key = Ok a -> entry = Some a.
Proof. destruct entry; cbn; congruence. Qed.

Section Driver.
Context `{CK : CythonKernel} `{SP : SciPy}.

(** A pixel that the processing mask keeps has positive exposure and a
    background that is not zero. *)
Lemma processing_mask_nonzero maps kernel mask j i m :
  TSMapEstimator.processing_mask maps kernel = Ok mask ->
  pixel mask j i = Some m -> m <> 0 ->
  exists exposure background e b,
    m_exposure maps = Some exposure /\ m_background maps = Some background /\
    pixel exposure j i = Some e /\ pixel background j i = Some b /\
    (0 <? e)%float = true /\ (b =? 0)%float = false.
Proof.
  unfold TSMapEstimator.processing_mask, TSMapEstimator.mask_default.
  intros H Hm Hnz.
  apply bind_Ok in H as (mask0 & H & Hmask).
  apply bind_Ok in H as (exposure & He & H).
  apply bind_Ok in H as (background & Hb & H).
  apply maps_getitem_Ok in He, Hb.
  apply Ok_inj in H, Hmask. subst mask0 mask.
  exists exposure, background.
  assert (Hcore : exists m0, m0 <> 0 /\
    pixel (arr_zip (fun m (b : float) => if (b =? 0)%float then 0 else m)
             (arr_zip (fun m (e : float) => Z.land m (if (0 <? e)%float then 1 else 0))
                (set_slice2
                   ((shape2 kernel).1 / 2, - (shape2 kernel).1 / 2 + 1)
                   ((shape2 kernel).2 / 2, - (shape2 kernel).2 / 2 + 1) 1
                   (arr_map (fun _ : float => 0) exposure)) exposure) background) j i
    = Some m0).
  { destruct (m_mask maps) as [user_mask|].
    - rewrite pixel_arr_zip in Hm.
      destruct (pixel _ j i) as [m0|]; cbn in Hm; [|discriminate].
      destruct (pixel user_mask j i) as [u|]; cbn in Hm; [|discriminate].
      injection Hm as <-. exists m0. split; [|reflexivity].
      intros ->. apply Hnz. apply Z.land_0_l.
    - eauto. }
  destruct Hcore as (m0 & Hm0 & Hpix).
  rewrite !pixel_arr_zip in Hpix.
  destruct (pixel (set_slice2 _ _ _ _) j i) as [m1|]; cbn in Hpix; [|discriminate].
  destruct (pixel exposure j i) as [e|]; cbn in Hpix; [|discriminate].
  destruct (pixel background j i) as [b|]; cbn in Hpix; [|discriminate].
  injection Hpix as <-. exists e, b.
  destruct (b =? 0)%float; [congruence|].
  destruct (0 <? e)%float; [auto 10|].
  exfalso. apply Hm0. apply Z.land_0_r.
Qed.






End Driver.


(* ===================================================================== *)
(** ** The driver: when the per-pixel evaluations return *)
(* ===================================================================== *)



Lemma shape_arr_map {A B} (f : A -> B) (a : array2 A) :
  map length (arr_map f a) = map length a.
Proof.
  unfold arr_map. rewrite map_map. apply map_ext. intros row. apply length_map.
Qed.

Lemma shape_arr_zip {A B C} (f : A -> B -> C) (a : array2 A) (b : array2 B) :
  map length a = map length b -> map length (arr_zip f a b) = map length a.
Proof.
  unfold arr_zip. revert b.
  induction a as [|ra a IH]; intros [|rb b] H; try discriminate; [reflexivity|].
  cbn in *. injection H as Hr H. f_equal; [|auto].
  rewrite length_zip_with. lia.
Qed.


Section Returns.
Context `{CK : CythonKernel} `{SP : SciPy}.








End Returns.

(* ===================================================================== *)
(** ** The driver: configuration and result collection *)
(* ===================================================================== *)

Section Collection.
Context `{CK : CythonKernel} `{SP : SciPy}.

Lemma init_result_returns maps counts names :
  m_counts maps = Some counts ->
  exists result,
    TSMapEstimator.init_result maps names = Ok result /\
    forall name, name ∈ names -> is_Some (result !! name).
Proof.
  intros Hc. unfold TSMapEstimator.init_result. rewrite Hc. cbn.
  generalize (∅ : gmap string (list (list float))).
  assert (Hgen : forall names (r0 : gmap string (list (list float))),
    exists result,
      foldM (fun (result : gmap string (list (list float))) name =>
               Ok (<[name := arr_map (fun one : float => (nan * one)%float)
                                (arr_map (fun _ : float => 1%float) counts)]> result))
        r0 names = Ok result /\
      forall name, name ∈ names \/ is_Some (r0 !! name) -> is_Some (result !! name)).
  { clear names. induction names as [|n names IH]; intros r0; cbn.
    - exists r0. split; [reflexivity|]. intros name [Hin|H]; [inversion Hin|exact H].
    - destruct (IH (<[n := arr_map (fun one : float => (nan * one)%float)
                            (arr_map (fun _ : float => 1%float) counts)]> r0))
        as (result & Hres & Hkeys).
      exists result. split; [exact Hres|]. intros name Hname.
      apply Hkeys. destruct (decide (name = n)) as [->|Hne].
      + right. rewrite lookup_insert_eq. eauto.
      + destruct Hname as [Hin|H].
        * left. apply elem_of_cons in Hin as [?|?]; [congruence|assumption].
        * right. now rewrite lookup_insert_ne by congruence. }
  intros r0. destruct (Hgen names r0) as (result & Hres & Hkeys).
  exists result. split; [exact Hres|]. intros name Hin. apply Hkeys. now left.
Qed.








End Collection.



(* ===================================================================== *)
(** ** Multi-scale helpers *)
(* ===================================================================== *)

(** C7, as the code has it: the zip of the five names with the four
    orders stops after four pairs.  'ts', 'sqrt_ts' and 'flux' are
    upsampled with order 1 and cropped, 'flux_err' is upsampled with
    order 0 and cropped, and 'niter' (as 'flux_ul') is returned as the
    driver left it on the downsampled stack: neither upsampled nor
    cropped. *)
Theorem upsample_results_leaves_niter {M} `{MapOps M} factor pad_width
    (ts_results r : gmap string M) :
  upsample_results factor pad_width ts_results = Ok r ->
  zip ["ts"; "sqrt_ts"; "flux"; "flux_err"; "niter"] [1; 1; 1; 0]
    = [("ts", 1); ("sqrt_ts", 1); ("flux", 1); ("flux_err", 0)] /\
  r !! "niter" = ts_results !! "niter" /\
  r !! "flux_ul" = ts_results !! "flux_ul" /\
  r !! "ts" = (fun m => map_crop pad_width (map_upsample factor false 1 m))
                <$> ts_results !! "ts" /\
  r !! "sqrt_ts" = (fun m => map_crop pad_width (map_upsample factor false 1 m))
                     <$> ts_results !! "sqrt_ts" /\
  r !! "flux" = (fun m => map_crop pad_width (map_upsample factor true 1 m))
                  <$> ts_results !! "flux" /\
  r !! "flux_err" = (fun m => map_crop pad_width (map_upsample factor true 0 m))
                      <$> ts_results !! "flux_err".
Proof.
  unfold upsample_results. cbn. unfold dict_getitem.
  destruct (ts_results !! "ts") as [ts|] eqn:Hts; cbn; [|discriminate].
  rewrite lookup_insert_eq. cbn.
  rewrite !lookup_insert_ne by discriminate.
  destruct (ts_results !! "sqrt_ts") as [sq|] eqn:Hsq; cbn; [|discriminate].
  rewrite lookup_insert_eq. cbn.
  rewrite !lookup_insert_ne by discriminate.
  destruct (ts_results !! "flux") as [fl|] eqn:Hfl; cbn; [|discriminate].
  rewrite lookup_insert_eq. cbn.
  rewrite !lookup_insert_ne by discriminate.
  destruct (ts_results !! "flux_err") as [fe|] eqn:Hfe; cbn; [|discriminate].
  rewrite lookup_insert_eq. cbn.
  intros Hr. apply Ok_inj in Hr. subst r.
  split; [reflexivity|].
  repeat split;
    repeat first [ rewrite lookup_insert_eq | rewrite lookup_insert_ne by discriminate ];
    reflexivity.
Qed.

(** A 10x10 image padded to 16x16 and downsampled by 2: every result map
    of the driver is 8x8.  After the loop 'ts' is 10x10 again, 'niter'
    still 8x8. *)
Lemma upsample_results_leaves_niter_witness :
  let ts_results : gmap string (Z * Z) :=
    list_to_map [("ts", (8, 8)); ("sqrt_ts", (8, 8)); ("flux", (8, 8));
                 ("flux_err", (8, 8)); ("flux_ul", (8, 8)); ("niter", (8, 8))] in
  exists r,
    upsample_results (PyInt 2) (3, 3) ts_results = Ok r /\
    r !! "ts" = Some (10, 10) /\
    r !! "niter" = Some (8, 8).
Proof.
  intros ts_results.
  destruct (upsample_results (PyInt 2) (3, 3) ts_results) as [r|e] eqn:Hr;
    [|vm_compute in Hr; discriminate].
  exists r. split; [reflexivity|].
  destruct (upsample_results_leaves_niter (PyInt 2) (3, 3) ts_results r Hr)
    as (_ & Hniter & _ & Hts & _).
  split; [rewrite Hts|rewrite Hniter]; reflexivity.
Defined.

(** C8, as the code has it: [compute_maximum_ts_image] never returns.
    An empty series or arrays of different shapes stop [np.dstack] with
    [ValueError]; every other input gets as far as the construction of
    the result, where the name [SkyImageList], which the module neither
    imports nor defines, raises [NameError]. *)
Theorem compute_maximum_ts_image_always_raises (ts_image_results : list scale_result) :
  compute_maximum_ts_image ts_image_results = Raise ValueError \/
  compute_maximum_ts_image ts_image_results = Raise (NameError "SkyImageList").
Proof.
  unfold compute_maximum_ts_image, maximum_arrays.
  destruct (np_dstack (r_ts <$> ts_image_results)) as [ts|e] eqn:Hts; cbn.
  2: { left. unfold np_dstack in Hts.
       destruct (r_ts <$> ts_image_results); [congruence|].
       destruct (bool_decide _); congruence. }
  destruct (np_dstack (r_niter <$> ts_image_results)) as [niter|e] eqn:Hniter; cbn.
  2: { left. unfold np_dstack in Hniter.
       destruct (r_niter <$> ts_image_results); [congruence|].
       destruct (bool_decide _); congruence. }
  destruct (np_dstack (r_amplitude <$> ts_image_results)) as [amp|e] eqn:Hamp; cbn.
  2: { left. unfold np_dstack in Hamp.
       destruct (r_amplitude <$> ts_image_results); [congruence|].
       destruct (bool_decide _); congruence. }
  destruct (fold_left _ _ _) as [[scale_max niter_max] amplitude_max]. cbn.
  destruct ts_image_results as [|first rest]; [discriminate Hts|]. cbn.
  right. reflexivity.
Qed.

(** The dominated series: the maxima are the maps of the dominant scale
    and the scale map is uniform, but the call raises [NameError]. *)
Lemma compute_maximum_ts_image_dominated :
  maximum_arrays Inputs.dominated_series
    = Ok ([[5; 6]], [[0.5; 0.5]], [[7; 8]], [[1.5; 1.25]])%float /\
  compute_maximum_ts_image Inputs.dominated_series = Raise (NameError "SkyImageList").
Proof. split; vm_compute; reflexivity. Qed.

(* ===================================================================== *)
(** ** Further facts about the driver and the fit *)
(* ===================================================================== *)

(** The fitting path at the centre of the example scenario: the dict
    carries the signed statistic, the scaled amplitude and the iteration
    count of the solver. *)
Lemma ts_fit_fields_witness :
  exists amplitude niter d,
    fit_amplitude (CK := Reference.kernel) (SP := Reference.scipy) Inputs.centre
      (window Inputs.counts Inputs.kernel Inputs.centre)
      (window Inputs.background Inputs.kernel Inputs.centre)
      (pixel_model Inputs.exposure Inputs.kernel Inputs.centre)
      None "root brentq" RTOL = Ok (amplitude, niter) /\
    ts_fit (CK := Reference.kernel) (SP := Reference.scipy) Inputs.centre
      (window Inputs.counts Inputs.kernel Inputs.centre)
      (window Inputs.background Inputs.kernel Inputs.centre)
      (pixel_model Inputs.exposure Inputs.kernel Inputs.centre)
      (null_statistic (Reference.cash Inputs.counts Inputs.background)
         Inputs.kernel Inputs.centre)
      None "root brentq" "covar" 1 "covar" 2 RTOL = Ok (PixelDict d) /\
    d !! "flux" = Some (PyFloat (amplitude * FLUX_FACTOR)%float) /\
    d !! "niter" = Some (PyInt niter).
Proof.
  destruct (ts_fit (CK := Reference.kernel) (SP := Reference.scipy) Inputs.centre
      (window Inputs.counts Inputs.kernel Inputs.centre)
      (window Inputs.background Inputs.kernel Inputs.centre)
      (pixel_model Inputs.exposure Inputs.kernel Inputs.centre)
      (null_statistic (Reference.cash Inputs.counts Inputs.background)
         Inputs.kernel Inputs.centre)
      None "root brentq" "covar" 1 "covar" 2 RTOL) as [r|e] eqn:Hfit;
    [|vm_compute in Hfit; discriminate].
  destruct (ts_fit_fields (CK := Reference.kernel) (SP := Reference.scipy)
              _ _ _ _ _ _ _ _ _ _ _ _ _ Hfit)
    as (amplitude & niter & d & Hamp & -> & _ & Hflux & Hniter).
  exists amplitude, niter, d. auto.
Defined.

Section Jobs.
Context `{CK : CythonKernel} `{SP : SciPy}.

(** The number of workers does not enter the result: the pool returns the
    per-pixel results in the order of the positions. *)
Lemma run_independent_of_n_jobs p n maps kernel which :
  1 <= p_n_jobs p -> 1 <= n ->
  TSMapEstimator.run
    {| p_method := p_method p; p_error_method := p_error_method p;
       p_error_sigma := p_error_sigma p; p_ul_method := p_ul_method p;
       p_ul_sigma := p_ul_sigma p; p_n_jobs := n;
       p_threshold := p_threshold p; p_rtol := p_rtol p |} maps kernel which
  = TSMapEstimator.run p maps kernel which.
Proof.
  intros Hp Hn. unfold TSMapEstimator.run, TSMapEstimator.seed_flux, pool_map.
  cbn [p_method p_error_method p_error_sigma p_ul_method p_ul_sigma p_n_jobs
       p_threshold p_rtol].
  destruct (Z.ltb_spec n 1); [lia|].
  destruct (Z.ltb_spec (p_n_jobs p) 1); [lia|]. reflexivity.
Qed.

End Jobs.

(** One worker against four on the example scenario. *)
Lemma run_independent_of_n_jobs_witness :
  TSMapEstimator.run (CK := Reference.kernel) (SP := Reference.scipy)
    {| p_method := "root brentq"; p_error_method := "covar"; p_error_sigma := 1;
       p_ul_method := "covar"; p_ul_sigma := 2; p_n_jobs := 4;
       p_threshold := None; p_rtol := RTOL |} Inputs.maps Inputs.kernel WhichAll
  = TSMapEstimator.run (CK := Reference.kernel) (SP := Reference.scipy)
      Inputs.defaults Inputs.maps Inputs.kernel WhichAll.
Proof.
  apply (run_independent_of_n_jobs (CK := Reference.kernel) (SP := Reference.scipy)
           Inputs.defaults 4 Inputs.maps Inputs.kernel WhichAll); cbn; lia.
Defined.

(* ===================================================================== *)
(** ** Windows: [_extract_array] *)
(* ===================================================================== *)

(** A slice with both bounds inside the list. *)
Lemma py_slice_inside {A} (l : list A) (lo hi : Z) :
  0 <= lo -> lo <= hi -> hi <= Z.of_nat (length l) ->
  py_slice lo hi l = take (Z.to_nat (hi - lo)) (drop (Z.to_nat lo) l).
Proof.
  intros Hlo Hle Hhi. unfold py_slice, slice_bound.
  destruct (Z.ltb_spec lo 0); [lia|]. destruct (Z.ltb_spec hi 0); [lia|].
  rewrite !Z.min_l by lia. reflexivity.
Qed.

Lemma length_py_slice_inside {A} (l : list A) (lo hi : Z) :
  0 <= lo -> lo <= hi -> hi <= Z.of_nat (length l) ->
  Z.of_nat (length (py_slice lo hi l)) = hi - lo.
Proof.
  intros Hlo Hle Hhi. rewrite py_slice_inside by assumption.
  rewrite length_take, length_drop. lia.
Qed.

Lemma lookup_py_slice_inside {A} (l : list A) (lo hi : Z) (k : nat) :
  0 <= lo -> lo <= hi -> hi <= Z.of_nat (length l) ->
  Z.of_nat k < hi - lo ->
  py_slice lo hi l !! k = l !! (Z.to_nat lo + k)%nat.
Proof.
  intros Hlo Hle Hhi Hk. rewrite py_slice_inside by assumption.
  rewrite lookup_take_lt by lia. apply lookup_drop.
Qed.

(** A slice whose lower bound is negative counts from the end: on a list
    at least as long as the span it is empty, not clipped. *)
Lemma py_slice_wraps {A} (l : list A) (lo hi : Z) :
  lo < 0 -> 0 <= hi -> hi - lo <= Z.of_nat (length l) -> py_slice lo hi l = [].
Proof.
  intros Hlo Hhi Hlen. unfold py_slice, slice_bound.
  destruct (Z.ltb_spec lo 0); [|lia].
  assert (Hspan : Z.to_nat
            ((if hi <? 0 then Z.max 0 (hi + Z.of_nat (length l))
              else Z.min hi (Z.of_nat (length l)))
             - Z.max 0 (lo + Z.of_nat (length l))) = 0%nat).
  { destruct (Z.ltb_spec hi 0); lia. }
  rewrite Hspan. reflexivity.
Qed.

Section Windows.
Context {A : Type}.

(** The block that a window inside the array is. *)
Lemma extract_array_block (array : array2 A) (h w y x : Z) :
  0 <= h -> 0 <= w ->
  0 <= y - h / 2 -> y + h / 2 + 1 <= Z.of_nat (length array) ->
  0 <= x - w / 2 ->
  Forall (fun row : list A => x + w / 2 + 1 <= Z.of_nat (length row)) array ->
  let win := _extract_array array (h, w) (y, x) in
  Z.of_nat (length win) = 2 * (h / 2) + 1 /\
  Forall (fun row : list A => Z.of_nat (length row) = 2 * (w / 2) + 1) win /\
  (forall a b : nat,
     Z.of_nat a <= 2 * (h / 2) -> Z.of_nat b <= 2 * (w / 2) ->
     pixel win a b
     = pixel array (Z.to_nat (y - h / 2) + a) (Z.to_nat (x - w / 2) + b)).
Proof.
  intros Hh Hw Hylo Hyhi Hxlo Hrows win. subst win.
  unfold _extract_array. cbn [fst snd].
  assert (Hh2 : 0 <= h / 2) by (apply Z.div_pos; lia).
  assert (Hw2 : 0 <= w / 2) by (apply Z.div_pos; lia).
  assert (Hlen : Z.of_nat (length (map (py_slice (x - w / 2) (x + w / 2 + 1))
                                   (py_slice (y - h / 2) (y + h / 2 + 1) array)))
                 = 2 * (h / 2) + 1).
  { rewrite length_map, length_py_slice_inside by lia. lia. }
  split; [exact Hlen|]. split.
  - apply Forall_forall. intros row Hrow.
    apply list_elem_of_In, in_map_iff in Hrow as (row0 & <- & Hin).
    apply list_elem_of_In in Hin.
    rewrite py_slice_inside in Hin by lia.
    apply (subseteq_take _ _), (subseteq_drop _ _) in Hin.
    rewrite Forall_forall in Hrows. specialize (Hrows row0 Hin).
    rewrite length_py_slice_inside by lia. lia.
  - intros a b Ha Hb. unfold pixel.
    rewrite lookup_map, lookup_py_slice_inside by lia.
    destruct (array !! (Z.to_nat (y - h / 2) + a)%nat) as [row|] eqn:Hrow;
      cbn; [|reflexivity].
    rewrite Forall_forall in Hrows.
    specialize (Hrows row (list_elem_of_lookup_2 _ _ _ Hrow)).
    apply lookup_py_slice_inside; lia.
Qed.

(** For a position at least half a kernel away from every border,
    the window spans [pos - floor(h/2), pos + floor(h/2)] in both axes: it
    has [2 * floor(h/2) + 1] rows and [2 * floor(w/2) + 1] columns (the
    kernel's shape when that is odd, one more when it is even) and its
    pixel [(a, b)] is the pixel [(y - floor(h/2) + a, x - floor(w/2) + b)]
    of the array. *)
Theorem extract_array_interior (array : array2 A) (h w y x : Z) :
  0 <= h -> 0 <= w ->
  0 <= y - h / 2 -> y + h / 2 + 1 <= Z.of_nat (length array) ->
  0 <= x - w / 2 ->
  Forall (fun row : list A => x + w / 2 + 1 <= Z.of_nat (length row)) array ->
  let win := _extract_array array (h, w) (y, x) in
  Z.of_nat (length win) = 2 * (h / 2) + 1 /\
  Forall (fun row : list A => Z.of_nat (length row) = 2 * (w / 2) + 1) win /\
  (forall a b : nat,
     Z.of_nat a <= 2 * (h / 2) -> Z.of_nat b <= 2 * (w / 2) ->
     pixel win a b
     = pixel array (Z.to_nat (y - h / 2) + a) (Z.to_nat (x - w / 2) + b)) /\
  (Z.odd h = true -> Z.of_nat (length win) = h) /\
  (Z.even h = true -> Z.of_nat (length win) = h + 1).
Proof.
  intros Hh Hw Hylo Hyhi Hxlo Hrows win.
  destruct (extract_array_block array h w y x Hh Hw Hylo Hyhi Hxlo Hrows)
    as (Hlen & Hcols & Hpixels).
  fold win in Hlen, Hcols, Hpixels.
  split; [exact Hlen|]. split; [exact Hcols|]. split; [exact Hpixels|]. split.
  - intros Hodd. rewrite Hlen. pose proof (Zmod_odd h) as Hmod.
    rewrite Hodd in Hmod. pose proof (Z.div_mod h 2). lia.
  - intros Heven. rewrite Hlen. pose proof (Zmod_odd h) as Hmod.
    rewrite <- Z.negb_even, Heven in Hmod. cbn in Hmod.
    pose proof (Z.div_mod h 2). lia.
Qed.

(** Closer than half a kernel to the top of an image that is at least
    as tall as the window, the lower row bound is negative and the slice
    counts from the end: the window is empty, not clipped. *)
Theorem extract_array_wraps_at_top (array : array2 A) (h w y x : Z) :
  0 <= y -> y < h / 2 ->
  2 * (h / 2) + 1 <= Z.of_nat (length array) ->
  _extract_array array (h, w) (y, x) = [].
Proof.
  intros Hy0 Hy Hlen. unfold _extract_array. cbn [fst snd].
  rewrite py_slice_wraps by lia. reflexivity.
Qed.

End Windows.

(** The 3x3 window at the centre of a 5x5 image. *)
Lemma extract_array_interior_witness :
  let win := _extract_array Inputs.wide_counts (3, 3) (2, 2) in
  Z.of_nat (length win) = 2 * (3 / 2) + 1 /\
  Forall (fun row : list float => Z.of_nat (length row) = 2 * (3 / 2) + 1) win /\
  (forall a b : nat,
     Z.of_nat a <= 2 * (3 / 2) -> Z.of_nat b <= 2 * (3 / 2) ->
     pixel win a b
     = pixel Inputs.wide_counts (Z.to_nat (2 - 3 / 2) + a) (Z.to_nat (2 - 3 / 2) + b)) /\
  (Z.odd 3 = true -> Z.of_nat (length win) = 3) /\
  (Z.even 3 = true -> Z.of_nat (length win) = 3 + 1).
Proof.
  apply (extract_array_interior Inputs.wide_counts 3 3 2 2);
    try (vm_compute; congruence).
  repeat constructor; vm_compute; congruence.
Defined.

(** The 3x3 window at the top row of a 5x5 image is empty. *)
Lemma extract_array_wraps_at_top_witness :
  _extract_array Inputs.wide_counts (3, 3) (0, 2) = [].
Proof.
  apply (extract_array_wraps_at_top Inputs.wide_counts 3 3 0 2);
    vm_compute; congruence.
Defined.

(* ===================================================================== *)
(** ** The default mask *)
(* ===================================================================== *)

(** The boundary slice of [mask_default] along an axis of length [n] for
    a kernel of size [k]: empty for [k] of 1 or 2, and for [k >= 3] the
    indices from [floor(k/2)] up to [n - floor((k-1)/2)]. *)
Lemma boundary_slice_small k n j :
  1 <= k <= 2 -> 0 <= n -> in_slice n (k / 2) (- k / 2 + 1) j = false.
Proof.
  intros Hk Hn. unfold in_slice, slice_bound.
  assert (Hstop : - k / 2 + 1 = 0) by (Z.to_euclidean_division_equations; lia).
  rewrite Hstop. cbn.
  destruct (Z.ltb_spec (k / 2) 0), (Z.leb_spec (Z.min (k / 2) n) j),
    (Z.ltb_spec j (Z.min 0 n)); cbn; try reflexivity;
    Z.to_euclidean_division_equations; lia.
Qed.

Lemma boundary_slice_inside k n j :
  3 <= k -> 0 <= n -> 0 <= j ->
  in_slice n (k / 2) (- k / 2 + 1) j = true <->
  k / 2 <= j /\ j < n - (k - 1) / 2.
Proof.
  intros Hk Hn Hj. unfold in_slice, slice_bound.
  rewrite andb_true_iff, Z.leb_le, Z.ltb_lt.
  destruct (Z.ltb_spec (k / 2) 0), (Z.ltb_spec (- k / 2 + 1) 0);
    Z.to_euclidean_division_equations; lia.
Qed.


Lemma elem_of_np_where_2 (mask : array2 Z) j i m :
  pixel mask j i = Some m -> m <> 0 -> (Z.of_nat j, Z.of_nat i) ∈ np_where mask.
Proof.
  unfold pixel, np_where. intros Hm Hnz.
  destruct (mask !! j) as [row|] eqn:Hrow; [|discriminate].
  apply list_elem_of_In, in_concat.
  exists (omap id (imap (fun i m => if m =? 0 then None
                                    else Some (Z.of_nat j, Z.of_nat i)) row)).
  split; apply list_elem_of_In.
  - apply (elem_of_lookup_imap_2
             (fun j row => omap id (imap (fun i m => if m =? 0 then None
                                    else Some (Z.of_nat j, Z.of_nat i)) row))
             mask row j Hrow).
  - apply list_elem_of_omap. exists (Some (Z.of_nat j, Z.of_nat i)).
    split; [|reflexivity].
    pose proof (elem_of_lookup_imap_2
                  (fun i m => if m =? 0 then None else Some (Z.of_nat j, Z.of_nat i))
                  row m i Hm) as Hin.
    cbn in Hin. destruct (Z.eqb_spec m 0); [contradiction|exact Hin].
Qed.

Section Mask.
Context `{CK : CythonKernel} `{SP : SciPy}.

(** Every pixel of the default mask: 1 inside the boundary slice where
    the exposure is positive and the background is not zero, 0
    elsewhere. *)
Lemma mask_default_pixel maps kernel mask exposure background j i row e b :
  TSMapEstimator.mask_default maps kernel = Ok mask ->
  m_exposure maps = Some exposure -> m_background maps = Some background ->
  exposure !! j = Some row -> row !! i = Some e ->
  pixel background j i = Some b ->
  pixel mask j i
  = Some (if in_slice (Z.of_nat (length exposure)) ((shape2 kernel).1 / 2)
                (- (shape2 kernel).1 / 2 + 1) (Z.of_nat j)
             && in_slice (Z.of_nat (length row)) ((shape2 kernel).2 / 2)
                  (- (shape2 kernel).2 / 2 + 1) (Z.of_nat i)
             && (0 <? e)%float && negb (b =? 0)%float
          then 1 else 0).
Proof.
  unfold TSMapEstimator.mask_default. intros H He Hb Hrow Hpe Hpb.
  rewrite He, Hb in H. cbn in H. apply Ok_inj in H. subst mask.
  rewrite !pixel_arr_zip, pixel_set_slice2.
  unfold arr_map. rewrite length_map, lookup_map, Hrow. cbn.
  rewrite length_map, lookup_map, Hpe. cbn.
  unfold pixel at 1. rewrite Hrow, Hpe, Hpb.
  destruct (in_slice _ _ _ (Z.of_nat j)), (in_slice _ _ _ (Z.of_nat i)),
    (0 <? e)%float, (b =? 0)%float; reflexivity.
Qed.

(** The default mask of an image of shape [H x W] under a kernel of at
    least 3x3: a pixel holds 1 exactly when it lies at least
    [floor(k/2)] from the low borders and [floor((k-1)/2)] from the high
    ones, has positive exposure and a background that is not zero;
    every other pixel holds 0. *)
Theorem mask_default_interior maps kernel mask exposure background j i row e b :
  TSMapEstimator.mask_default maps kernel = Ok mask ->
  m_exposure maps = Some exposure -> m_background maps = Some background ->
  exposure !! j = Some row -> row !! i = Some e ->
  pixel background j i = Some b ->
  3 <= (shape2 kernel).1 -> 3 <= (shape2 kernel).2 ->
  let kh := (shape2 kernel).1 in
  let kw := (shape2 kernel).2 in
  let inside :=
    kh / 2 <= Z.of_nat j /\ Z.of_nat j < Z.of_nat (length exposure) - (kh - 1) / 2 /\
    kw / 2 <= Z.of_nat i /\ Z.of_nat i < Z.of_nat (length row) - (kw - 1) / 2 in
  (inside /\ (0 <? e)%float = true /\ (b =? 0)%float = false ->
   pixel mask j i = Some 1) /\
  (~ (inside /\ (0 <? e)%float = true /\ (b =? 0)%float = false) ->
   pixel mask j i = Some 0).
Proof.
  intros H He Hb Hrow Hpe Hpb Hkh Hkw kh kw inside.
  rewrite (mask_default_pixel _ _ _ _ _ _ _ _ _ _ H He Hb Hrow Hpe Hpb).
  fold kh kw.
  pose proof (boundary_slice_inside kh (Z.of_nat (length exposure)) (Z.of_nat j)
                Hkh ltac:(lia) ltac:(lia)) as Hj.
  pose proof (boundary_slice_inside kw (Z.of_nat (length row)) (Z.of_nat i)
                Hkw ltac:(lia) ltac:(lia)) as Hi.
  split.
  - intros ((Hj1 & Hj2 & Hi1 & Hi2) & -> & ->).
    rewrite (proj2 Hj), (proj2 Hi) by auto. reflexivity.
  - intros Hnot.
    destruct (in_slice _ _ _ (Z.of_nat j)) eqn:Ej; [|reflexivity].
    destruct (in_slice _ _ _ (Z.of_nat i)) eqn:Ei; [|reflexivity].
    destruct (0 <? e)%float eqn:Ee; [|reflexivity].
    destruct (b =? 0)%float eqn:Eb; [reflexivity|].
    exfalso. apply Hnot. unfold inside.
    destruct (proj1 Hj eq_refl), (proj1 Hi eq_refl). auto 10.
Qed.

(** The and of a 0/1 entry with the caller's value keeps its lowest bit. *)
Lemma processing_mask_bitwise maps kernel mask default user j i m u :
  TSMapEstimator.processing_mask maps kernel = Ok mask ->
  TSMapEstimator.mask_default maps kernel = Ok default ->
  m_mask maps = Some user ->
  pixel default j i = Some m -> (m = 0 \/ m = 1) ->
  pixel user j i = Some u ->
  pixel mask j i = Some (if (m =? 1) && Z.odd u then 1 else 0).
Proof.
  unfold TSMapEstimator.processing_mask. intros H Hd Hu Hm Hm01 Hpu.
  rewrite Hd, Hu in H. cbn in H. apply Ok_inj in H. subst mask.
  rewrite pixel_arr_zip, Hm, Hpu.
  destruct Hm01 as [-> | ->]; cbn [Z.eqb andb]; [reflexivity|].
  f_equal. rewrite Z.land_comm.
  change 1 with (Z.ones 1) at 1. rewrite Z.land_ones by lia.
  change (2 ^ 1) with 2. apply Zmod_odd.
Qed.


End Mask.

Section MaskAndRun.
Context `{CK : CythonKernel} `{SP : SciPy}.

(** The default mask holds only 0 and 1. *)
Lemma mask_default_binary maps kernel default j i m :
  TSMapEstimator.mask_default maps kernel = Ok default ->
  pixel default j i = Some m -> m = 0 \/ m = 1.
Proof.
  unfold TSMapEstimator.mask_default. intros H Hm.
  apply bind_Ok in H as (exposure & _ & H).
  apply bind_Ok in H as (background & _ & H).
  apply Ok_inj in H. subst default.
  rewrite !pixel_arr_zip, pixel_set_slice2 in Hm.
  unfold arr_map in Hm. rewrite lookup_map in Hm.
  destruct (exposure !! j) as [row|]; cbn in Hm; [|discriminate].
  rewrite lookup_map in Hm.
  destruct (row !! i) as [e0|]; cbn in Hm; [|discriminate].
  destruct (pixel exposure j i) as [e|]; [|discriminate].
  destruct (pixel background j i) as [b|]; [|discriminate].
  apply (inj Some) in Hm. subst m.
  destruct (_ && _), (0 <? e)%float, (b =? 0)%float; auto.
Qed.

(** The caller's mask enters by a bitwise and: a pixel is processed
    exactly when the default mask holds 1 there and the caller's value is
    odd, so an even non-zero entry of an integer mask switches its pixel
    off. *)
Theorem processing_mask_is_bitwise maps kernel mask default user j i m u :
  TSMapEstimator.processing_mask maps kernel = Ok mask ->
  TSMapEstimator.mask_default maps kernel = Ok default ->
  m_mask maps = Some user ->
  pixel default j i = Some m ->
  pixel user j i = Some u ->
  pixel mask j i = Some (if (m =? 1) && Z.odd u then 1 else 0) /\
  ((Z.of_nat j, Z.of_nat i) ∈ np_where mask <-> m = 1 /\ Z.odd u = true).
Proof.
  intros H Hd Hu Hm Hpu.
  pose proof (mask_default_binary _ _ _ _ _ _ Hd Hm) as Hm01.
  pose proof (processing_mask_bitwise _ _ _ _ _ _ _ _ _ H Hd Hu Hm Hm01 Hpu) as Hpix.
  split; [exact Hpix|]. split.
  - intros Hin. apply elem_of_np_where in Hin as (j' & i' & v & Heq & Hv & Hnz).
    injection Heq as Hj Hi. apply Nat2Z.inj in Hj, Hi. subst j' i'.
    rewrite Hpix in Hv. apply (inj Some) in Hv. subst v.
    destruct (Z.eqb_spec m 1); cbn in Hnz; [|congruence].
    destruct (Z.odd u); [auto|congruence].
  - intros [-> Hodd]. apply (elem_of_np_where_2 mask j i 1); [|discriminate].
    rewrite Hpix, Hodd. reflexivity.
Qed.



(** Under a kernel of odd shape every dispatched position has a full
    window in every array of the shape of the exposure: the window has
    the shape of the kernel and is the block of the array centred at the
    position. *)
Theorem dispatched_window_fits {A} maps kernel mask exposure (array : array2 A)
    (width : nat) (j i : nat) :
  TSMapEstimator.processing_mask maps kernel = Ok mask ->
  m_exposure maps = Some exposure ->
  rectangular width exposure ->
  map length array = map length exposure ->
  Z.odd (shape2 kernel).1 = true -> Z.odd (shape2 kernel).2 = true ->
  (Z.of_nat j, Z.of_nat i) ∈ np_where mask ->
  let kh := (shape2 kernel).1 in
  let kw := (shape2 kernel).2 in
  let win := _extract_array array (shape2 kernel) (Z.of_nat j, Z.of_nat i) in
  Z.of_nat (length win) = kh /\
  Forall (fun row : list A => Z.of_nat (length row) = kw) win /\
  (forall a b : nat,
     Z.of_nat a < kh -> Z.of_nat b < kw ->
     pixel win a b
     = pixel array (Z.to_nat (Z.of_nat j - kh / 2) + a)
         (Z.to_nat (Z.of_nat i - kw / 2) + b)).
Proof.
  intros Hmask He Hrect Hshape Hoddh Hoddw Hin kh kw win.
  change (Z.odd kh = true) in Hoddh. change (Z.odd kw = true) in Hoddw.
  apply elem_of_np_where in Hin as (j' & i' & m & Heq & Hm & Hnz).
  injection Heq as Hj Hi. apply Nat2Z.inj in Hj, Hi. subst j' i'.
  pose proof Hmask as Hmask'. unfold TSMapEstimator.processing_mask in Hmask'.
  apply bind_Ok in Hmask' as (default & Hd & Hpm). apply Ok_inj in Hpm.
  destruct (processing_mask_nonzero _ _ _ _ _ _ Hmask Hm Hnz)
    as (exposure' & background & e & b & He' & Hb & Hpe & Hpb & _).
  rewrite He in He'. injection He' as <-.
  pose proof Hpe as Hpe'. unfold pixel in Hpe'.
  destruct (exposure !! j) as [row|] eqn:Hrow; [|discriminate].
  pose proof (mask_default_pixel _ _ _ _ _ _ _ _ _ _ Hd He Hb Hrow Hpe' Hpb) as Hpix.
  (* the default mask holds 1 at the position *)
  assert (Hone : pixel default j i <> Some 0).
  { intros Hz. destruct (m_mask maps) as [user|]; subst mask.
    - rewrite pixel_arr_zip, Hz in Hm. destruct (pixel user j i); [|discriminate].
      rewrite Z.land_0_l in Hm. congruence.
    - congruence. }
  rewrite Hpix in Hone. fold kh kw in Hone.
  destruct (in_slice _ (kh / 2) _ (Z.of_nat j)) eqn:Ej; [|cbn in Hone; congruence].
  destruct (in_slice _ (kw / 2) _ (Z.of_nat i)) eqn:Ei; [|cbn in Hone; congruence].
  clear Hone.
  assert (Hwidth : length row = width).
  { unfold rectangular in Hrect. rewrite Forall_forall in Hrect.
    apply Hrect. eapply list_elem_of_lookup_2, Hrow. }
  (* a kernel of size 1 has an empty slice: both sizes are at least 3 *)
  assert (Hkh : 3 <= kh).
  { destruct (Z_lt_le_dec kh 3) as [Hlt|]; [|assumption]. exfalso.
    assert (Hpos : 1 <= kh <= 2 \/ kh <= 0) by lia. destruct Hpos as [Hs|Hz].
    - rewrite (boundary_slice_small kh _ _ Hs) in Ej by lia. discriminate.
    - assert (kh = 0) by (subst kh; unfold shape2; cbn; unfold shape2 in Hz; cbn in Hz; lia).
      subst kh. rewrite H in Hoddh. discriminate. }
  assert (Hkw : 3 <= kw).
  { destruct (Z_lt_le_dec kw 3) as [Hlt|]; [|assumption]. exfalso.
    assert (Hpos : 1 <= kw <= 2 \/ kw <= 0) by lia. destruct Hpos as [Hs|Hz].
    - rewrite (boundary_slice_small kw _ _ Hs) in Ei by lia. discriminate.
    - assert (kw = 0) by (subst kw; unfold shape2; cbn; unfold shape2 in Hz; cbn in Hz; lia).
      subst kw. rewrite H in Hoddw. discriminate. }
  subst win. change (shape2 kernel) with (kh, kw). clearbody kh kw.
  apply boundary_slice_inside in Ej as [Hj1 Hj2]; [|lia..].
  apply boundary_slice_inside in Ei as [Hi1 Hi2]; [|lia..].
  assert (Hh2 : kh = 2 * (kh / 2) + 1).
  { pose proof (Zmod_odd kh) as Hmod. rewrite Hoddh in Hmod.
    pose proof (Z.div_mod kh 2). lia. }
  assert (Hw2 : kw = 2 * (kw / 2) + 1).
  { pose proof (Zmod_odd kw) as Hmod. rewrite Hoddw in Hmod.
    pose proof (Z.div_mod kw 2). lia. }
  assert (Hhalf_h : (kh - 1) / 2 = kh / 2).
  { rewrite Hh2 at 1. replace (2 * (kh / 2) + 1 - 1) with (kh / 2 * 2) by lia.
    apply Z.div_mul. lia. }
  assert (Hhalf_w : (kw - 1) / 2 = kw / 2).
  { rewrite Hw2 at 1. replace (2 * (kw / 2) + 1 - 1) with (kw / 2 * 2) by lia.
    apply Z.div_mul. lia. }
  assert (Hlen : length array = length exposure).
  { rewrite <- (length_map length array), Hshape. apply length_map. }
  assert (Hrows_fit :
    Forall (fun r : list A => Z.of_nat i + kw / 2 + 1 <= Z.of_nat (length r)) array).
  { apply Forall_forall. intros r Hr.
    assert (Hrlen : length r = width).
    { apply list_elem_of_lookup in Hr as (k & Hk).
      assert (Hk' : map length array !! k = Some (length r))
        by (rewrite lookup_map, Hk; reflexivity).
      rewrite Hshape, lookup_map in Hk'.
      destruct (exposure !! k) as [r'|] eqn:Hr'; [|discriminate].
      injection Hk' as <-. unfold rectangular in Hrect.
      rewrite Forall_forall in Hrect. apply Hrect.
      eapply list_elem_of_lookup_2, Hr'. }
    lia. }
  destruct (extract_array_block array kh kw (Z.of_nat j) (Z.of_nat i)
              ltac:(lia) ltac:(lia) ltac:(lia) ltac:(lia) ltac:(lia) Hrows_fit)
    as (Hrows & Hcols & Hpixels).
  split; [lia|]. split.
  - eapply Forall_impl; [exact Hcols|]. cbn. intros r Hr. lia.
  - intros a' b' Ha Hb'. apply Hpixels; lia.
Qed.

End MaskAndRun.

(** The centre of the 5x5 field under the 3x3 kernel. *)
Lemma mask_default_interior_witness :
  exists mask,
    TSMapEstimator.mask_default Inputs.wide_maps Inputs.kernel = Ok mask /\
    pixel mask 2 2 = Some 1.
Proof.
  destruct (TSMapEstimator.mask_default Inputs.wide_maps Inputs.kernel)
    as [mask|e] eqn:Hmask; [|vm_compute in Hmask; discriminate].
  exists mask. split; [reflexivity|].
  apply (mask_default_interior Inputs.wide_maps Inputs.kernel mask
           Inputs.wide_exposure Inputs.wide_background 2 2
           [100; 100; 100; 100; 100]%float 100%float 1%float Hmask);
    try reflexivity; try (vm_compute; congruence).
  repeat split; vm_compute; congruence.
Defined.

(** The 5x5 field with the caller's mask: the 2 at the centre switches
    the centre off. *)
Lemma processing_mask_is_bitwise_witness :
  exists mask,
    TSMapEstimator.processing_mask masked_maps Inputs.kernel = Ok mask /\
    pixel mask 2 2 = Some 0 /\
    ((2, 2) ∈ np_where mask <-> 1 = 1 /\ Z.odd 2 = true).
Proof.
  destruct (TSMapEstimator.processing_mask masked_maps Inputs.kernel)
    as [mask|e] eqn:Hmask; [|vm_compute in Hmask; discriminate].
  destruct (TSMapEstimator.mask_default masked_maps Inputs.kernel)
    as [default|e] eqn:Hdefault; [|vm_compute in Hdefault; discriminate].
  exists mask. split; [reflexivity|].
  apply (processing_mask_is_bitwise masked_maps Inputs.kernel mask default
           user_mask_5x5 2 2 1 2 Hmask Hdefault eq_refl).
  - vm_compute in Hdefault. apply Ok_inj in Hdefault. subst default. reflexivity.
  - reflexivity.
Defined.

Lemma well_formed_maps : well_formed Inputs.maps.
Proof.
  exists Inputs.counts, Inputs.background, Inputs.exposure.
  repeat split; reflexivity.
Qed.

Lemma well_formed_wide_maps : well_formed Inputs.wide_maps.
Proof.
  exists Inputs.wide_counts, Inputs.wide_background, Inputs.wide_exposure.
  repeat split; reflexivity.
Qed.



(** The window of the counts at the centre of the 5x5 field. *)
Lemma dispatched_window_fits_witness :
  exists mask,
    TSMapEstimator.processing_mask Inputs.wide_maps Inputs.kernel = Ok mask /\
    Z.of_nat (length (_extract_array Inputs.wide_counts (shape2 Inputs.kernel) (2, 2)))
      = 3.
Proof.
  destruct (TSMapEstimator.processing_mask Inputs.wide_maps Inputs.kernel)
    as [mask|e] eqn:Hmask; [|vm_compute in Hmask; discriminate].
  exists mask. split; [reflexivity|].
  apply (dispatched_window_fits Inputs.wide_maps Inputs.kernel mask
           Inputs.wide_exposure Inputs.wide_counts 5 2 2 Hmask eq_refl).
  - repeat constructor.
  - reflexivity.
  - reflexivity.
  - reflexivity.
  - vm_compute in Hmask. apply Ok_inj in Hmask. subst mask.
    vm_compute. repeat constructor.
Defined.

(* ===================================================================== *)
(** ** The driver: missing maps and the threshold *)
(* ===================================================================== *)

Section DriverErrors.
Context `{CK : CythonKernel} `{SP : SciPy}.

Lemma init_result_missing_counts maps names :
  m_counts maps = None -> names <> [] ->
  TSMapEstimator.init_result maps names = Raise (KeyError "counts").
Proof.
  intros Hc Hnames. unfold TSMapEstimator.init_result.
  destruct names as [|name names]; [congruence|]. cbn. rewrite Hc. reflexivity.
Qed.

(** A missing input map is a [KeyError] on its name, raised before any
    pixel is evaluated: 'counts' when a result map is requested,
    'exposure' next, then 'background'. *)
Theorem run_missing_map_raises_KeyError p maps kernel which :
  (m_counts maps = None -> which_names which <> [] ->
   TSMapEstimator.run p maps kernel which = Raise (KeyError "counts")) /\
  (is_Some (m_counts maps) -> m_exposure maps = None ->
   TSMapEstimator.run p maps kernel which = Raise (KeyError "exposure")) /\
  (is_Some (m_counts maps) -> is_Some (m_exposure maps) ->
   m_background maps = None ->
   TSMapEstimator.run p maps kernel which = Raise (KeyError "background")).
Proof.
  unfold TSMapEstimator.run. fold (which_names which).
  split; [|split].
  - intros Hc Hnames. rewrite init_result_missing_counts by assumption. reflexivity.
  - intros [counts Hc] He.
    destruct (init_result_returns maps counts (which_names which) Hc)
      as (result0 & -> & _). cbn.
    unfold TSMapEstimator.processing_mask, TSMapEstimator.mask_default.
    rewrite He. reflexivity.
  - intros [counts Hc] [exposure He] Hb.
    destruct (init_result_returns maps counts (which_names which) Hc)
      as (result0 & -> & _). cbn.
    unfold TSMapEstimator.processing_mask, TSMapEstimator.mask_default.
    rewrite He, Hb. reflexivity.
Qed.

(** With a threshold and a method other than 'root newton' there is no
    flux seed map: the first evaluated pixel indexes [None] and [run]
    raises [TypeError]. *)
Theorem run_threshold_without_seed_raises p maps kernel which mask threshold :
  p_threshold p = Some threshold ->
  p_method p <> "root newton" ->
  1 <= p_n_jobs p ->
  well_formed maps -> odd_kernel kernel ->
  TSMapEstimator.processing_mask maps kernel = Ok mask ->
  np_where mask <> [] ->
  TSMapEstimator.run p maps kernel which = Raise TypeError.
Proof.
  intros Hthr Hmethod Hjobs Hwf _ Hmask Hpos. unfold TSMapEstimator.run.
  pose proof Hwf as (counts & background & exposure & Hc & Hb & He & _).
  fold (which_names which).
  destruct (init_result_returns maps counts (which_names which) Hc)
    as (result0 & -> & _). cbn.
  rewrite Hmask. cbn. unfold TSMapEstimator.seed_flux.
  apply String.eqb_neq in Hmethod. rewrite Hmethod. cbn.
  rewrite Hc, Hb, He. cbn. unfold pool_map.
  destruct (Z.ltb_spec (p_n_jobs p) 1); [lia|].
  destruct (np_where mask) as [|position positions]; [congruence|].
  cbn. unfold _ts_value. rewrite Hthr. reflexivity.
Qed.

End DriverErrors.

(** The example scenario without its exposure map. *)
Lemma run_missing_map_raises_KeyError_witness :
  TSMapEstimator.run (CK := Reference.kernel) (SP := Reference.scipy)
    Inputs.defaults
    {| m_counts := Some Inputs.counts; m_background := Some Inputs.background;
       m_exposure := None; m_mask := None |}
    Inputs.kernel WhichAll = Raise (KeyError "exposure").
Proof.
  apply (run_missing_map_raises_KeyError (CK := Reference.kernel)
           (SP := Reference.scipy) Inputs.defaults
           {| m_counts := Some Inputs.counts; m_background := Some Inputs.background;
              m_exposure := None; m_mask := None |} Inputs.kernel WhichAll).
  - cbn. eauto.
  - reflexivity.
Defined.

(** The example scenario with the default method and a threshold. *)
Lemma run_threshold_without_seed_raises_witness :
  TSMapEstimator.run (CK := Reference.kernel) (SP := Reference.scipy)
    {| p_method := "root brentq"; p_error_method := "covar"; p_error_sigma := 1;
       p_ul_method := "covar"; p_ul_sigma := 2; p_n_jobs := 1;
       p_threshold := Some 1%float; p_rtol := RTOL |}
    Inputs.maps Inputs.kernel WhichAll = Raise TypeError.
Proof.
  destruct (TSMapEstimator.processing_mask Inputs.maps Inputs.kernel)
    as [mask|e] eqn:Hmask; [|vm_compute in Hmask; discriminate].
  apply (run_threshold_without_seed_raises (CK := Reference.kernel)
           (SP := Reference.scipy)
           {| p_method := "root brentq"; p_error_method := "covar";
              p_error_sigma := 1; p_ul_method := "covar"; p_ul_sigma := 2;
              p_n_jobs := 1; p_threshold := Some 1%float; p_rtol := RTOL |}
           Inputs.maps Inputs.kernel WhichAll mask 1%float
           eq_refl); try exact Hmask.
  - discriminate.
  - cbn. lia.
  - exact well_formed_maps.
  - split; reflexivity.
  - vm_compute in Hmask. apply Ok_inj in Hmask. subst mask. discriminate.
Defined.

(* ===================================================================== *)
(** ** The fields of a per-pixel result *)
(* ===================================================================== *)

Section ResultFields.
Context `{CK : CythonKernel} `{SP : SciPy}.

Lemma eqb_covar_conf (s : string) :
  bool_decide (s ∈ ["covar"; "conf"]) = String.eqb s "covar" || String.eqb s "conf".
Proof.
  destruct (String.eqb_spec s "covar") as [->|H1]; [reflexivity|].
  destruct (String.eqb_spec s "conf") as [->|H2]; [reflexivity|].
  apply bool_decide_eq_false_2. rewrite !elem_of_cons, elem_of_nil. tauto.
Qed.

(** The upper limit from the covariance reads the 'flux_err' entry of
    the dict: without an error method ('flux_err' not requested) the
    evaluation of the pixel raises [KeyError]. *)
Theorem ts_value_covar_limit_needs_error position counts exposure background c_0
    kernel flux method error_method error_sigma ul_sigma rtol amplitude niter :
  fit_amplitude position (window counts kernel position)
    (window background kernel position) (pixel_model exposure kernel position)
    flux method rtol = Ok (amplitude, niter) ->
  error_method ∉ ["covar"; "conf"] ->
  _ts_value position counts exposure background c_0 kernel flux method
    error_method error_sigma "covar" ul_sigma None rtol
  = Raise (KeyError "flux_err").
Proof.
  intros Hfit Herr. rewrite ts_value_no_threshold. unfold ts_fit.
  rewrite Hfit. cbn.
  pose proof (bool_decide_eq_false_2 _ Herr) as Hb.
  rewrite eqb_covar_conf in Hb.
  apply orb_false_iff in Hb as [-> ->]. reflexivity.
Qed.


End ResultFields.

(** The example scenario, asked for the upper limit without the error. *)
Lemma ts_value_covar_limit_needs_error_witness :
  _ts_value (CK := Reference.kernel) (SP := Reference.scipy) Inputs.centre
    Inputs.counts Inputs.exposure Inputs.background
    (Reference.cash Inputs.counts Inputs.background) Inputs.kernel None
    "root brentq" "none" 1 "covar" 2 None RTOL
  = Raise (KeyError "flux_err").
Proof.
  apply (ts_value_covar_limit_needs_error (CK := Reference.kernel)
           (SP := Reference.scipy) Inputs.centre Inputs.counts Inputs.exposure
           Inputs.background (Reference.cash Inputs.counts Inputs.background)
           Inputs.kernel None "root brentq" "none" 1 2 RTOL 228906250000%float 11).
  - vm_compute. reflexivity.
  - rewrite !elem_of_cons, elem_of_nil. intros [H|[H|[]]]; discriminate.
Defined.

(* ===================================================================== *)
(** ** The driver: the maps of a run that returns *)
(* ===================================================================== *)







Section RunOutcome.
Context `{CK : CythonKernel} `{SP : SciPy}.




End RunOutcome.

Section RunStages.
Context `{CK : CythonKernel} `{SP : SciPy}.



End RunStages.


Section RunMaps.
Context `{CK : CythonKernel} `{SP : SciPy}.



End RunMaps.




(* ===================================================================== *)
(** ** The driver: requests that [run] cannot serve *)
(* ===================================================================== *)

Section RunRequests.
Context `{CK : CythonKernel} `{SP : SciPy}.




End RunRequests.



(* ===================================================================== *)
(** ** The solvers: failure, the lower bound and the iteration count *)
(* ===================================================================== *)





Section SolverFacts.
Context `{CK : CythonKernel} `{SP : SciPy}.





End SolverFacts.




(* ===================================================================== *)
(** ** The flux seed map *)
(* ===================================================================== *)

Section FluxDefault.
Context `{CK : CythonKernel} `{SP : SciPy}.

(** [flux_default] over well-formed maps returns a map of the shape of
    the counts, whatever the kernel; a missing map is a [KeyError] on
    its name, 'counts' first, then 'background', then 'exposure'. *)
Theorem flux_default_shape maps kernel :
  (forall counts, m_counts maps = Some counts -> well_formed maps ->
     exists flux, TSMapEstimator.flux_default maps kernel = Ok flux /\
                  map length flux = map length counts) /\
  (m_counts maps = None ->
   TSMapEstimator.flux_default maps kernel = Raise (KeyError "counts")) /\
  (is_Some (m_counts maps) -> m_background maps = None ->
   TSMapEstimator.flux_default maps kernel = Raise (KeyError "background")) /\
  (is_Some (m_counts maps) -> is_Some (m_background maps) ->
   m_exposure maps = None ->
   TSMapEstimator.flux_default maps kernel = Raise (KeyError "exposure")).
Proof.
  unfold TSMapEstimator.flux_default. split; [|split; [|split]].
  - intros counts Hcounts (counts' & background & exposure & Hc & Hb & He & Hsc & Hsb).
    rewrite Hcounts in Hc. apply (inj Some) in Hc. subst counts'.
    rewrite Hcounts, Hb, He. cbn. eexists. split; [reflexivity|].
    rewrite shape_arr_map, fftconvolve_shape.
    rewrite shape_arr_zip; rewrite shape_arr_zip; congruence.
  - intros ->. reflexivity.
  - intros [counts ->] ->. reflexivity.
  - intros [counts ->] [background ->] ->. reflexivity.
Qed.

End FluxDefault.

(** The seed map of the example scenario. *)
Lemma flux_default_shape_witness :
  exists flux,
    TSMapEstimator.flux_default (SP := Reference.scipy) Inputs.maps Inputs.kernel
      = Ok flux /\
    map length flux = map length Inputs.counts.
Proof.
  apply (proj1 (flux_default_shape (SP := Reference.scipy) Inputs.maps Inputs.kernel)
           Inputs.counts eq_refl well_formed_maps).
Defined.
